(** * The agent orchestration core of the ai-service, embedded in Rocq

    The development follows the Python sources under
    [src/backend/ai-service/src]: [core/agent.py], [core/llm.py],
    [core/embeddings.py], [models/skills.py], and the handlers of
    [routes/agent.py].  The concrete OpenAI and Pinecone clients
    ([services/]) are the environment: their calls are oracles whose
    answers may depend on how many calls were made before, and every call
    is recorded in the world.  [services/pinecone.py] is also modelled on
    its own, over the calls of the index.

    Python exceptions are values of [exn]; a call either returns, raises,
    or has not returned yet ([Pending]: blocked on a lock, sleeping in a
    loop, or still retrying when the fuel of the model ran out). *)

From Stdlib Require Import ZArith QArith String Ascii List Lia Bool.
From stdpp Require Import base option list gmap strings pretty.

Local Open Scope string_scope.
Local Open Scope list_scope.
Local Open Scope nat_scope.

(** ** Exceptions and outcomes *)

Inductive exn : Type :=
| ValueError (msg : string)
| RuntimeError (msg : string)
| TypeError (msg : string)
| KeyError (key : string)
| ServiceError (msg : string)      (* an error raised by an external client *)
| RetryError (last : exn).         (* tenacity.RetryError, wrapping the last attempt *)

(** [str(e)] as used by the f-strings of the handlers. *)
Fixpoint str (e : exn) : string :=
  match e with
  | ValueError m | RuntimeError m | TypeError m | ServiceError m => m
  | KeyError k => "'" +:+ k +:+ "'"
  | RetryError e' => "RetryError[" +:+ str e' +:+ "]"
  end.

Definition is_ValueError (e : exn) : bool :=
  match e with ValueError _ => true | _ => false end.

Inductive outcome (A : Type) : Type :=
| Returned (a : A)
| Raised (e : exn)
| Pending.
Arguments Returned {A} a.
Arguments Raised {A} e.
Arguments Pending {A}.

(** ** A state-and-exception monad for the method bodies *)

Module Py.

Definition M (St A : Type) : Type := St -> outcome A * St.

Definition ret {St A} (a : A) : M St A := fun s => (Returned a, s).
Definition raise {St A} (e : exn) : M St A := fun s => (Raised e, s).
Definition block {St A} : M St A := fun s => (Pending, s).

Definition bind {St A B} (m : M St A) (k : A -> M St B) : M St B :=
  fun s =>
    match m s with
    | (Returned a, s') => k a s'
    | (Raised e, s') => (Raised e, s')
    | (Pending, s') => (Pending, s')
    end.

Definition get {St} : M St St := fun s => (Returned s, s).
Definition modify {St} (f : St -> St) : M St unit := fun s => (Returned tt, f s).

(** [try: m  except Exception as e: h e] *)
Definition try_except {St A} (m : M St A) (h : exn -> M St A) : M St A :=
  fun s =>
    match m s with
    | (Raised e, s') => h e s'
    | r => r
    end.

(** [try: m  finally: f], also the exit of a [with] block. *)
Definition finally {St A} (m : M St A) (f : St -> St) : M St A :=
  fun s =>
    match m s with
    | (Returned a, s') => (Returned a, f s')
    | (Raised e, s') => (Raised e, f s')
    | (Pending, s') => (Pending, s')
    end.

(** Run a computation of a component on the part of the state it owns. *)
Definition zoom {St T A} (proj : St -> T) (inj : T -> St -> St) (m : M T A) : M St A :=
  fun s => let (r, t') := m (proj s) in (r, inj t' s).

(** A [for] loop that threads an accumulator. *)
Fixpoint for_each {St A B} (l : list A) (acc : B) (body : A -> B -> M St B) : M St B :=
  match l with
  | [] => ret acc
  | x :: l' => bind (body x acc) (fun acc' => for_each l' acc' body)
  end.

End Py.

Declare Scope py_scope.
Delimit Scope py_scope with py.
Notation "x <- m ;; k" := (Py.bind m (fun x => k))
  (at level 100, m at next level, right associativity) : py_scope.
Notation "m ;;; k" := (Py.bind m (fun _ => k))
  (at level 100, right associativity) : py_scope.

(** ** tenacity's [retry] decorator

    [retry(wait=..., stop=...)] with no [retry=] argument retries after
    every exception.  [stop_after_attempt n] gives up after the [n]-th
    attempt and raises [RetryError] (no [reraise]); without a [stop] the
    decorator never gives up.  Between two attempts it sleeps for the
    time its [wait] gives.  *)

Module Tenacity.

Inductive stop_policy := stop_never | stop_after_attempt (n : nat).

Definition stops (p : stop_policy) (attempt_number : nat) : bool :=
  match p with
  | stop_never => false
  | stop_after_attempt n => n <=? attempt_number
  end.

(** [wait_exponential(multiplier, min, max)]: the seconds to wait after
    attempt number [attempt_number]. *)
Definition wait_exponential (multiplier min max : Z) (attempt_number : nat) : Z :=
  Z.max (Z.max 0 min) (Z.min (multiplier * 2 ^ (Z.of_nat attempt_number - 1)) max).

Fixpoint retrying {St A} (fuel : nat) (wait : nat -> Z) (sleep : Z -> St -> St)
    (p : stop_policy) (attempt_number : nat) (f : Py.M St A) : Py.M St A :=
  fun s =>
    match fuel with
    | O => (Pending, s)
    | S fuel' =>
        match f s with
        | (Raised e, s') =>
            if stops p attempt_number then (Raised (RetryError e), s')
            else retrying fuel' wait sleep p (S attempt_number) f (sleep (wait attempt_number) s')
        | r => r
        end
    end.

Definition retry {St A} (fuel : nat) (wait : nat -> Z) (sleep : Z -> St -> St)
    (p : stop_policy) (f : Py.M St A) : Py.M St A :=
  retrying fuel wait sleep p 1 f.

End Tenacity.

(** ** Python values

    The dictionaries that the code passes around hold JSON-like values.
    A [float] is carried by its [repr] text: no claim computes with one. *)

#[warnings="-register-all"] Inductive pyval : Type :=
| VNone
| VBool (b : bool)
| VInt (z : Z)
| VFloat (repr : string)
| VStr (s : string)
| VList (l : list pyval)
| VDict (d : list (string * pyval)).

Module PyBuiltins.

(** [type(v)], up to the distinctions [isinstance] can see. *)
Inductive pytype := TNone | TBool | TInt | TFloat | TStr | TList | TDict.

Definition type_of (v : pyval) : pytype :=
  match v with
  | VNone => TNone | VBool _ => TBool | VInt _ => TInt | VFloat _ => TFloat
  | VStr _ => TStr | VList _ => TList | VDict _ => TDict
  end.

Definition pytype_eqb (a b : pytype) : bool :=
  match a, b with
  | TNone, TNone | TBool, TBool | TInt, TInt | TFloat, TFloat
  | TStr, TStr | TList, TList | TDict, TDict => true
  | _, _ => false
  end.

(** [isinstance(v, t)]: [bool] is a subclass of [int]. *)
Definition isinstance (v : pyval) (t : pytype) : bool :=
  pytype_eqb (type_of v) t || (pytype_eqb (type_of v) TBool && pytype_eqb t TInt).

Definition is_dict (v : pyval) : bool := isinstance v TDict.

(** Truth value of an object, as [if x:] and [not x] see it. *)
Definition truthy (v : pyval) : bool :=
  match v with
  | VNone => false
  | VBool b => b
  | VInt z => negb (z =? 0)%Z
  | VFloat r => negb (String.eqb r "0.0" || String.eqb r "-0.0")
  | VStr s => negb (String.eqb s EmptyString)
  | VList l => match l with [] => false | _ => true end
  | VDict d => match d with [] => false | _ => true end
  end.

(** [str.strip()] removes leading and trailing white space. *)
Definition is_space (c : ascii) : bool :=
  let n := nat_of_ascii c in
  (n =? 32) || ((9 <=? n) && (n <=? 13)) || ((28 <=? n) && (n <=? 31)) || (n =? 133) || (n =? 160).

Fixpoint lstrip (s : string) : string :=
  match s with
  | String c s' => if is_space c then lstrip s' else s
  | EmptyString => EmptyString
  end.

Fixpoint rstrip (s : string) : string :=
  match s with
  | String c s' =>
      match rstrip s' with
      | EmptyString => if is_space c then EmptyString else String c EmptyString
      | r => String c r
      end
  | EmptyString => EmptyString
  end.

Definition strip (s : string) : string := rstrip (lstrip s).

Definition nonempty (s : string) : bool := negb (String.eqb s EmptyString).

(** [repr(s)] for a string: the quotes, and the escapes of the quote
    character, the backslash and the unprintable characters. *)
Fixpoint contains (c : ascii) (s : string) : bool :=
  match s with
  | String c' s' => Ascii.eqb c c' || contains c s'
  | EmptyString => false
  end.

Definition double_quote : ascii := ascii_of_nat 34.

Definition repr_quote (s : string) : ascii :=
  if contains "'" s && negb (contains double_quote s) then double_quote else "'"%char.

Definition hex_digit (n : nat) : ascii :=
  default "0"%char (String.get n "0123456789abcdef").

Definition repr_char (quote c : ascii) : string :=
  let n := nat_of_ascii c in
  if Ascii.eqb c quote || (n =? 92) then String "\" (String c EmptyString)
  else if n =? 9 then "\t"
  else if n =? 10 then "\n"
  else if n =? 13 then "\r"
  else if (n <? 32) || ((127 <=? n) && (n <? 161)) || (n =? 173)
  then "\x" +:+ String (hex_digit (n / 16)) (String (hex_digit (n mod 16)) EmptyString)
  else String c EmptyString.

Fixpoint repr_body (quote : ascii) (s : string) : string :=
  match s with
  | String c s' => repr_char quote c +:+ repr_body quote s'
  | EmptyString => EmptyString
  end.

Definition repr_str (s : string) : string :=
  let q := repr_quote s in String q (repr_body q s +:+ String q EmptyString).

Fixpoint repr (v : pyval) : string :=
  match v with
  | VNone => "None"
  | VBool b => if b then "True" else "False"
  | VInt z => pretty z
  | VFloat r => r
  | VStr s => repr_str s
  | VList l => "[" +:+ String.concat ", " (map repr l) +:+ "]"
  | VDict d =>
      "{" +:+ String.concat ", " (map (fun kv => repr_str (fst kv) +:+ ": " +:+ repr (snd kv)) d)
          +:+ "}"
  end.

(** [str(v)]: a string is itself, anything else prints as its [repr]. *)
Definition py_str (v : pyval) : string :=
  match v with VStr s => s | _ => repr v end.

(** [len(str(v))] *)
Definition len_str (v : pyval) : nat := String.length (py_str v).

(** Dictionaries keep insertion order: [k in d], [d[k]], [d[k] = v] and
    [d.update(e)]. *)
Definition dict : Type := list (string * pyval).

Fixpoint dict_get (d : dict) (k : string) : option pyval :=
  match d with
  | [] => None
  | (k', v) :: d' => if String.eqb k k' then Some v else dict_get d' k
  end.

Definition dict_in (k : string) (d : dict) : bool :=
  match dict_get d k with Some _ => true | None => false end.

Fixpoint dict_set (d : dict) (k : string) (v : pyval) : dict :=
  match d with
  | [] => [(k, v)]
  | (k', v') :: d' => if String.eqb k k' then (k, v) :: d' else (k', v') :: dict_set d' k v
  end.

Definition dict_update (d e : dict) : dict :=
  fold_left (fun acc kv => dict_set acc (fst kv) (snd kv)) e d.

(** The name of a type as an f-string prints it. *)
Definition type_str (t : pytype) : string :=
  match t with
  | TNone => "<class 'NoneType'>" | TBool => "<class 'bool'>" | TInt => "<class 'int'>"
  | TFloat => "<class 'float'>" | TStr => "<class 'str'>" | TList => "<class 'list'>"
  | TDict => "<class 'dict'>"
  end.

(** ['c' * n] *)
Fixpoint str_mul (c : ascii) (n : nat) : string :=
  match n with
  | O => EmptyString
  | S n' => String c (str_mul c n')
  end.

End PyBuiltins.

(** ** models/skills.py *)

Module Skills.
Import PyBuiltins.

Inductive SkillCategory := TEXT_PROCESSING | DECISION_MAKING | DATA_ANALYSIS | KNOWLEDGE_BASE.

(** A member of the [str]-mixin enum is the string of its name. *)
Definition category_value (c : SkillCategory) : string :=
  match c with
  | TEXT_PROCESSING => "TEXT_PROCESSING"
  | DECISION_MAKING => "DECISION_MAKING"
  | DATA_ANALYSIS => "DATA_ANALYSIS"
  | KNOWLEDGE_BASE => "KNOWLEDGE_BASE"
  end.

(** The keys of [SkillCategory.__members__]. *)
Definition SkillCategory_members : list string :=
  map category_value [TEXT_PROCESSING; DECISION_MAKING; DATA_ANALYSIS; KNOWLEDGE_BASE].

Definition str_in (s : string) (l : list string) : bool := existsb (String.eqb s) l.

Record PerformanceMetrics := {
  avg_latency : Q;
  success_rate : Q;
  last_execution : option string
}.

Record ErrorCounts := { validation_errors : nat; execution_errors : nat; timeout_errors : nat }.

Record SecurityConfig := { max_retries : nat; timeout_seconds : nat; max_input_size : nat }.

Record Skill := {
  name : string;
  description : string;
  category : SkillCategory;
  prompt_template : list (string * string);
  input_schema : dict;
  output_schema : dict;
  metadata : dict;
  performance_metrics : PerformanceMetrics;
  error_counts : ErrorCounts;
  security_config : SecurityConfig
}.

(** The values [Skill.__init__] gives to the run-time fields. *)
Definition initial_performance_metrics : PerformanceMetrics :=
  {| avg_latency := 0; success_rate := 100; last_execution := None |}.
Definition initial_error_counts : ErrorCounts :=
  {| validation_errors := 0; execution_errors := 0; timeout_errors := 0 |}.
Definition initial_security_config : SecurityConfig :=
  {| max_retries := 3; timeout_seconds := 30; max_input_size := 10 * 1000 |}.

(** [skill.dict()]: the keys that [validate_skill_config] reads, with the
    types the model declares for them. *)
Definition Skill_dict (s : Skill) : dict :=
  [ ("name", VStr (name s));
    ("description", VStr (description s));
    ("category", VStr (category_value (category s)));
    ("prompt_template", VDict (map (fun kv => (fst kv, VStr (snd kv))) (prompt_template s)));
    ("input_schema", VDict (input_schema s));
    ("output_schema", VDict (output_schema s));
    ("metadata", VDict (metadata s)) ].

Definition hashable (v : pyval) : bool :=
  match v with VList _ | VDict _ => false | _ => true end.

Definition required_fields : list string :=
  ["name"; "description"; "category"; "prompt_template"].

Definition validate_skill_config (skill_config : dict) : bool * option string :=
  match find (fun field => negb (dict_in field skill_config)) required_fields with
  | Some field => (false, Some ("Missing required field: " +:+ field))
  | None =>
      let cat := default VNone (dict_get skill_config "category") in
      if negb (hashable cat)
      then (false, Some ("Validation error: unhashable type: " +:+
                         (if is_dict cat then "'dict'" else "'list'")))
      else if negb (match cat with VStr c => str_in c SkillCategory_members | _ => false end)
      then (false, Some ("Invalid category: " +:+ py_str cat))
      else if negb (is_dict (default VNone (dict_get skill_config "prompt_template")))
      then (false, Some "Prompt template must be a dictionary")
      else if dict_in "input_schema" skill_config &&
              negb (is_dict (default VNone (dict_get skill_config "input_schema")))
      then (false, Some "Input schema must be a dictionary")
      else if dict_in "output_schema" skill_config &&
              negb (is_dict (default VNone (dict_get skill_config "output_schema")))
      then (false, Some "Output schema must be a dictionary")
      else (true, None)
  end.

(** [Skill.validate_inputs]. With typed run-time fields nothing in the
    body can raise, so the handler that counts validation errors is dead. *)
Fixpoint check_schema (schema inputs : dict) : bool * option string :=
  match schema with
  | [] => (true, None)
  | (key, sch) :: schema' =>
      match dict_get inputs key with
      | None => (false, Some ("Missing required input: " +:+ key))
      | Some v =>
          if negb (isinstance v (type_of sch))
          then (false, Some ("Invalid type for " +:+ key +:+ ": expected " +:+
                             type_str (type_of sch) +:+ ", got " +:+ type_str (type_of v)))
          else check_schema schema' inputs
      end
  end.

Definition validate_inputs (s : Skill) (inputs : dict) : bool * option string :=
  let input_size := len_str (VDict inputs) in
  if max_input_size (security_config s) <? input_size
  then (false, Some ("Input size exceeds limit: " +:+ pretty input_size +:+ " > " +:+
                     pretty (max_input_size (security_config s))))
  else check_schema (input_schema s) inputs.

(** The [@validator("name")] of [Skill]. *)
Definition validate_name (v : string) : string + string :=
  if negb (nonempty v) || negb (nonempty (strip v)) then inl "Skill name cannot be empty"
  else inr (strip v).

(** *** SkillRegistry *)

Record SkillRegistry := {
  _skills : gmap string Skill;
  _metrics : gmap string dict;
  _registry_lock : bool            (* [true] while the [threading.Lock] is held *)
}.

Definition new_SkillRegistry : SkillRegistry :=
  {| _skills := ∅; _metrics := ∅; _registry_lock := false |}.

Definition set_lock (b : bool) (r : SkillRegistry) : SkillRegistry :=
  {| _skills := _skills r; _metrics := _metrics r; _registry_lock := b |}.

(** [with self._registry_lock:].  The lock is not reentrant and the model
    has one thread of control: acquiring a held lock never returns. *)
Definition with_registry_lock {A} (body : Py.M SkillRegistry A) : Py.M SkillRegistry A :=
  fun r =>
    if _registry_lock r then (Pending, r)
    else Py.finally body (set_lock false) (set_lock true r).

Definition initial_metrics (registered_at : string) : dict :=
  [("registered_at", VStr registered_at); ("execution_count", VInt 0);
   ("error_rate", VFloat "0.0")].

Definition insert_skill (registered_at : string) (skill : Skill) (r : SkillRegistry)
  : SkillRegistry :=
  {| _skills := <[name skill := skill]> (_skills r);
     _metrics := <[name skill := initial_metrics registered_at]> (_metrics r);
     _registry_lock := _registry_lock r |}.

Definition result : Type := bool * option string.

(** [registered_at] is [datetime.now().isoformat()] at the time of the call. *)
Definition register_skill (registered_at : string) (skill : Skill)
  : Py.M SkillRegistry result :=
  Py.try_except
    (with_registry_lock
       (let '(is_valid, error_msg) := validate_skill_config (Skill_dict skill) in
        if negb is_valid then Py.ret (false, error_msg)
        else
          (r <- Py.get ;;
           if bool_decide (is_Some (_skills r !! name skill))
           then Py.ret (false, Some ("Skill already exists: " +:+ name skill))
           else (Py.modify (insert_skill registered_at skill) ;;;
                 Py.ret (true, None)))%py))
    (fun e => Py.ret (false, Some (str e))).

Definition bulk_register (registered_at : string) (skills : list Skill)
  : Py.M SkillRegistry (gmap string result) :=
  Py.try_except
    (with_registry_lock
       (match find (fun skill => negb (fst (validate_skill_config (Skill_dict skill)))) skills with
        | Some skill =>
            Py.ret {[ name skill := (false, snd (validate_skill_config (Skill_dict skill))) ]}
        | None =>
            Py.for_each skills (∅ : gmap string result)
              (fun skill results =>
                 (res <- register_skill registered_at skill ;;
                  Py.ret (<[name skill := res]> results))%py)
        end))
    (fun e => Py.ret (list_to_map (map (fun skill => (name skill, (false, Some (str e)))) skills))).

(** Modelled from the spec: [get_skill] is called by the agent but is not
    defined by [SkillRegistry] in the source.  It is the lookup of a
    registered skill by its name ([NotFound] for an unknown name). *)
Definition get_skill (r : SkillRegistry) (skill_name : string) : option Skill :=
  _skills r !! skill_name.

(** Modelled from the spec: [list_skills] is called by the agent and the
    routes but is not defined by [SkillRegistry] in the source.  It gives
    the registered skills, in an order the spec leaves open. *)
Definition list_skills (r : SkillRegistry) : list Skill :=
  map snd (map_to_list (_skills r)).

End Skills.

(** ** The environment: settings, external clients, clock

    [OpenAIService] and [PineconeService] are the external collaborators.
    A call to one of them is answered by an oracle that sees the number of
    earlier calls to the same operation, so that a client can fail on its
    second call and succeed on its third.  The world records every call. *)

Definition embedding : Type := list Q.

(** [(id, vector, metadata)] as passed to [upsert_vectors]. *)
Definition vector_item : Type := string * embedding * pyval.

(** One entry of the list returned by [PineconeService.query]. *)
Record Match := { match_id : string; match_score : Q; match_metadata : pyval }.

(** A [datetime]: microseconds since the epoch, and the UTC offset of an
    aware value ([None] for a naive one, as [datetime.now()] returns). *)
Record datetime := { micros : Z; tzinfo : option Z }.

Record Settings := {
  embedding_dimension : nat;          (* int(vector_config['dimension']) *)
  max_concurrent_requests : nat;      (* model_config.get('max_concurrent_requests', 10) *)
  model : string
}.

Record Services := {
  create_embedding : nat -> string -> outcome embedding;
  create_completion : nat -> string -> option Q -> option Z -> string -> outcome string;
  upsert_vectors : nat -> list vector_item -> outcome bool;
  pinecone_query : nat -> embedding -> Z -> option pyval -> outcome (list Match);
  skill_execute : nat -> Skills.Skill -> PyBuiltins.dict -> outcome pyval;
  isoformat : Z -> string;
  fromisoformat : string -> option datetime
}.

(** [clock] is [datetime.now()] in microseconds, [skill_calls] the
    invocations of [Skill.execute], [rate_limiter] the free permits of the
    semaphore, [counters] the increments of the prometheus counters. *)
Record World := {
  clock : Z;
  embedding_calls : list string;
  completion_calls : list (string * option Q * option Z * string);
  upsert_calls : list (list vector_item);
  query_calls : list (embedding * Z * option pyval);
  skill_calls : list (string * PyBuiltins.dict);
  rate_limiter : nat;
  counters : list string
}.

Module W.

Definition init (cfg : Settings) (now : Z) : World :=
  {| clock := now; embedding_calls := []; completion_calls := []; upsert_calls := [];
     query_calls := []; skill_calls := []; rate_limiter := max_concurrent_requests cfg;
     counters := [] |}.

Definition set_clock (x : Z) (w : World) : World :=
  {| clock := x; embedding_calls := embedding_calls w; completion_calls := completion_calls w;
     upsert_calls := upsert_calls w; query_calls := query_calls w;
     skill_calls := skill_calls w; rate_limiter := rate_limiter w; counters := counters w |}.

Definition set_embedding_calls (x : list string) (w : World) : World :=
  {| clock := clock w; embedding_calls := x; completion_calls := completion_calls w;
     upsert_calls := upsert_calls w; query_calls := query_calls w;
     skill_calls := skill_calls w; rate_limiter := rate_limiter w; counters := counters w |}.

Definition set_completion_calls (x : list (string * option Q * option Z * string)) (w : World) : World :=
  {| clock := clock w; embedding_calls := embedding_calls w; completion_calls := x;
     upsert_calls := upsert_calls w; query_calls := query_calls w;
     skill_calls := skill_calls w; rate_limiter := rate_limiter w; counters := counters w |}.

Definition set_upsert_calls (x : list (list vector_item)) (w : World) : World :=
  {| clock := clock w; embedding_calls := embedding_calls w; completion_calls := completion_calls w;
     upsert_calls := x; query_calls := query_calls w;
     skill_calls := skill_calls w; rate_limiter := rate_limiter w; counters := counters w |}.

Definition set_query_calls (x : list (embedding * Z * option pyval)) (w : World) : World :=
  {| clock := clock w; embedding_calls := embedding_calls w; completion_calls := completion_calls w;
     upsert_calls := upsert_calls w; query_calls := x;
     skill_calls := skill_calls w; rate_limiter := rate_limiter w; counters := counters w |}.

Definition set_skill_calls (x : list (string * PyBuiltins.dict)) (w : World) : World :=
  {| clock := clock w; embedding_calls := embedding_calls w; completion_calls := completion_calls w;
     upsert_calls := upsert_calls w; query_calls := query_calls w;
     skill_calls := x; rate_limiter := rate_limiter w; counters := counters w |}.

Definition set_rate_limiter (x : nat) (w : World) : World :=
  {| clock := clock w; embedding_calls := embedding_calls w; completion_calls := completion_calls w;
     upsert_calls := upsert_calls w; query_calls := query_calls w;
     skill_calls := skill_calls w; rate_limiter := x; counters := counters w |}.

Definition set_counters (x : list string) (w : World) : World :=
  {| clock := clock w; embedding_calls := embedding_calls w; completion_calls := completion_calls w;
     upsert_calls := upsert_calls w; query_calls := query_calls w;
     skill_calls := skill_calls w; rate_limiter := rate_limiter w; counters := x |}.

Definition counter (label : string) (w : World) : nat :=
  length (filter (fun l => l = label) (counters w)).

(** [COUNTER.labels(...).inc()] *)
Definition inc (label : string) : Py.M World unit :=
  Py.modify (fun w => set_counters (counters w ++ [label]) w).

(** [asyncio.sleep(seconds)] and the waits of the retry decorator. *)
Definition sleep (seconds : Z) (w : World) : World :=
  set_clock (clock w + seconds * 1000000)%Z w.

Definition now : Py.M World Z := fun w => (Returned (clock w), w).

(** Calls of the external clients. *)
Definition call_create_embedding (env : Services) (text : string) : Py.M World embedding :=
  fun w => (create_embedding env (length (embedding_calls w)) text,
            set_embedding_calls (embedding_calls w ++ [text]) w).

Definition call_create_completion (env : Services) (prompt : string) (temperature : option Q)
    (max_tokens : option Z) (model_name : string) : Py.M World string :=
  fun w => (create_completion env (length (completion_calls w)) prompt temperature max_tokens model_name,
            set_completion_calls (completion_calls w ++ [(prompt, temperature, max_tokens, model_name)]) w).

Definition call_upsert_vectors (env : Services) (vector_data : list vector_item) : Py.M World bool :=
  fun w => (upsert_vectors env (length (upsert_calls w)) vector_data,
            set_upsert_calls (upsert_calls w ++ [vector_data]) w).

Definition call_query (env : Services) (query_vector : embedding) (top_k : Z)
    (filter_params : option pyval) : Py.M World (list Match) :=
  fun w => (pinecone_query env (length (query_calls w)) query_vector top_k filter_params,
            set_query_calls (query_calls w ++ [(query_vector, top_k, filter_params)]) w).

Definition call_skill_execute (env : Services) (skill : Skills.Skill) (inputs : PyBuiltins.dict)
  : Py.M World pyval :=
  fun w => (skill_execute env (length (skill_calls w)) skill inputs,
            set_skill_calls (skill_calls w ++ [(Skills.name skill, inputs)]) w).

End W.

(** ** core/llm.py *)

Module LLM.

Definition DEFAULT_MAX_ATTEMPTS : nat := 3.

(** The decorator of [generate_text] and of [Agent.process_request]:
    [retry(wait=wait_exponential(multiplier=1, min=4, max=60), stop=stop_after_attempt(3))]. *)
Definition retry3 {A} (fuel : nat) (f : Py.M World A) : Py.M World A :=
  Tenacity.retry fuel (Tenacity.wait_exponential 1 4 60) W.sleep
    (Tenacity.stop_after_attempt DEFAULT_MAX_ATTEMPTS) f.

Record LLMRequest := {
  prompt : string;
  temperature : option Q;
  max_tokens : option Z;
  request_id : option string
}.

(** The three [@validator]s; [inl] carries the message of the [ValueError]. *)
Definition validate_prompt (v : string) : string + string :=
  if negb (PyBuiltins.nonempty v) || negb (PyBuiltins.nonempty (PyBuiltins.strip v))
  then inl "Prompt cannot be empty"
  else inr (PyBuiltins.strip v).

Definition validate_temperature (v : option Q) : string + option Q :=
  match v with
  | Some t => if negb (Qle_bool 0 t && Qle_bool t 1)
              then inl "Temperature must be between 0 and 1" else inr v
  | None => inr v
  end.

Definition validate_max_tokens (v : option Z) : string + option Z :=
  match v with
  | Some n => if (n <? 1)%Z then inl "Max tokens must be positive" else inr v
  | None => inr v
  end.

Definition error_of {A} (r : string + A) : list string :=
  match r with inl m => [m] | inr _ => [] end.

(** [LLMRequest(prompt=..., ...)]: pydantic runs every validator and raises
    one [ValidationError], a [ValueError], listing the failures. *)
Definition new_LLMRequest (p : string) (t : option Q) (m : option Z) (rid : option string)
  : exn + LLMRequest :=
  match validate_prompt p, validate_temperature t, validate_max_tokens m with
  | inr p', inr t', inr m' =>
      inr {| prompt := p'; temperature := t'; max_tokens := m'; request_id := rid |}
  | rp, rt, rm =>
      inl (ValueError (String.concat "; " (error_of rp ++ error_of rt ++ error_of rm)))
  end.

Definition valid_arguments (p : string) (t : option Q) (m : option Z) : bool :=
  match new_LLMRequest p t m None with inr _ => true | inl _ => false end.

(** [async with self._rate_limiter]: a task that finds no free permit waits. *)
Definition with_rate_limiter {A} (body : Py.M World A) : Py.M World A :=
  fun w =>
    match rate_limiter w with
    | O => (Pending, w)
    | S n => Py.finally body (fun w' => W.set_rate_limiter (S (rate_limiter w')) w')
               (W.set_rate_limiter n w)
    end.

Section WithEnv.
Variable cfg : Settings.
Variable env : Services.

Definition generate_text_attempt (p : string) (t : option Q) (m : option Z)
    (rid : option string) : Py.M World string :=
  Py.try_except
    (match new_LLMRequest p t m rid with
     | inl e => Py.raise e
     | inr request =>
         with_rate_limiter
           (W.call_create_completion env (prompt request) (temperature request)
              (max_tokens request) (model cfg))
     end)
    (fun e =>
       if is_ValueError e
       then (W.inc "llm_request_failures_total/generate_text/validation_error" ;;;
             Py.raise e)%py
       else (W.inc "llm_request_failures_total/generate_text/service_error" ;;;
             Py.raise (RuntimeError ("Text generation failed: " +:+ str e)))%py).

Definition generate_text (fuel : nat) (p : string) (t : option Q) (m : option Z)
    (rid : option string) : Py.M World string :=
  retry3 fuel (generate_text_attempt p t m rid).

(** [get_embedding] has no retry decorator. *)
Definition get_embedding (text : string) : Py.M World embedding :=
  Py.try_except
    (if negb (PyBuiltins.nonempty (PyBuiltins.strip text))
     then Py.raise (ValueError "Input text cannot be empty")
     else W.call_create_embedding env text)
    (fun e =>
       (W.inc "llm_request_failures_total/get_embedding/service_error" ;;;
        Py.raise (RuntimeError ("Embedding generation failed: " +:+ str e)))%py).

End WithEnv.
End LLM.

(** ** services/pinecone.py: [upsert_vectors], [query], [delete_vectors]

    The adapter that [store_embeddings] calls.  Here the Pinecone index is
    the oracle, and the state is the list of the calls made to it. *)

Module Pinecone.

Section WithIndex.
Variable dimension : nat.
Variable index_upsert : nat -> list vector_item -> outcome unit.

Definition call_index_upsert (vectors : list vector_item) : Py.M (list (list vector_item)) unit :=
  fun sent => (index_upsert (length sent) vectors, sent ++ [vectors]).

Definition upsert_vectors_attempt (vector_data : list vector_item)
  : Py.M (list (list vector_item)) bool :=
  Py.try_except
    (match find (fun item => negb (length (snd (fst item)) =? dimension)) vector_data with
     | Some item =>
         Py.raise (ValueError ("Vector dimension " +:+ pretty (length (snd (fst item))) +:+
                               " does not match index dimension " +:+ pretty dimension))
     | None => (call_index_upsert vector_data ;;; Py.ret true)%py
     end)
    (fun e => Py.raise (RuntimeError ("Failed to upsert vectors: " +:+ str e))).

(** [retry(wait=wait_exponential(...))] with no [stop]. *)
Definition upsert_vectors (fuel : nat) (vector_data : list vector_item)
  : Py.M (list (list vector_item)) bool :=
  Tenacity.retry fuel (Tenacity.wait_exponential 1 4 60) (fun _ sent => sent)
    Tenacity.stop_never (upsert_vectors_attempt vector_data).

(** [query]: the dimension check, the query of the index, and the matches
    as dictionaries with [id], [score] and [metadata]. *)
Variable index_query : nat -> embedding -> Z -> option pyval -> outcome (list Match).

Definition call_index_query (query_vector : embedding) (top_k : Z) (filter_params : option pyval)
  : Py.M (list (embedding * Z * option pyval)) (list Match) :=
  fun asked => (index_query (length asked) query_vector top_k filter_params,
                asked ++ [(query_vector, top_k, filter_params)]).

Definition query_attempt (query_vector : embedding) (top_k : Z) (filter_params : option pyval)
  : Py.M (list (embedding * Z * option pyval)) (list Match) :=
  Py.try_except
    (if negb (length query_vector =? dimension)
     then Py.raise (ValueError ("Query vector dimension " +:+ pretty (length query_vector) +:+
                                " does not match index dimension " +:+ pretty dimension))
     else
       (results <- call_index_query query_vector top_k filter_params ;;
        Py.ret (map (fun m => {| match_id := match_id m; match_score := match_score m;
                                 match_metadata := match_metadata m |}) results))%py)
    (fun e => Py.raise (RuntimeError ("Failed to query vectors: " +:+ str e))).

Definition query (fuel : nat) (query_vector : embedding) (top_k : Z)
    (filter_params : option pyval) : Py.M (list (embedding * Z * option pyval)) (list Match) :=
  Tenacity.retry fuel (Tenacity.wait_exponential 1 4 60) (fun _ asked => asked)
    Tenacity.stop_never (query_attempt query_vector top_k filter_params).

(** [delete_vectors] *)
Variable index_delete : nat -> list string -> outcome unit.

Definition call_index_delete (vector_ids : list string) : Py.M (list (list string)) unit :=
  fun deleted => (index_delete (length deleted) vector_ids, deleted ++ [vector_ids]).

Definition delete_vectors_attempt (vector_ids : list string) : Py.M (list (list string)) bool :=
  Py.try_except
    (match vector_ids with
     | [] => Py.raise (ValueError "No vector IDs provided for deletion")
     | _ => (call_index_delete vector_ids ;;; Py.ret true)%py
     end)
    (fun e => Py.raise (RuntimeError ("Failed to delete vectors: " +:+ str e))).

Definition delete_vectors (fuel : nat) (vector_ids : list string) : Py.M (list (list string)) bool :=
  Tenacity.retry fuel (Tenacity.wait_exponential 1 4 60) (fun _ deleted => deleted)
    Tenacity.stop_never (delete_vectors_attempt vector_ids).

End WithIndex.
End Pinecone.

(** ** core/embeddings.py *)

Module Embeddings.

Definition BATCH_SIZE : nat := 100.
Definition RETRY_MULTIPLIER : Z := 1.
Definition MIN_RETRY_WAIT : Z := 4.
Definition MAX_RETRY_WAIT : Z := 60.

(** [retry(wait=wait_exponential(...))]: no [stop] argument. *)
Definition retry_forever {A} (fuel : nat) (f : Py.M World A) : Py.M World A :=
  Tenacity.retry fuel (Tenacity.wait_exponential RETRY_MULTIPLIER MIN_RETRY_WAIT MAX_RETRY_WAIT)
    W.sleep Tenacity.stop_never f.

(** [range(0, n, step)] and [l[i:j]]. *)
Definition range_step (n step : nat) : list nat :=
  map (fun k => k * step) (seq 0 ((n + step - 1) / step)).

Definition slice {A} (l : list A) (i j : nat) : list A := take (j - i) (drop i l).

Section WithEnv.
Variable cfg : Settings.
Variable env : Services.

Definition generate_embedding_attempt (text : string) : Py.M World embedding :=
  Py.try_except
    (if negb (PyBuiltins.nonempty text)
     then Py.raise (ValueError "Input text must be a non-empty string")
     else
       (e <- W.call_create_embedding env text ;;
        if negb (length e =? embedding_dimension cfg)
        then Py.raise (ValueError ("Generated embedding dimension " +:+ pretty (length e) +:+
                                   " does not match expected dimension " +:+
                                   pretty (embedding_dimension cfg)))
        else Py.ret e)%py)
    (fun e => Py.raise (RuntimeError ("Failed to generate embedding: " +:+ str e))).

Definition generate_embedding (fuel : nat) (text : string) : Py.M World embedding :=
  retry_forever fuel (generate_embedding_attempt text).

(** The inner loop of [store_embeddings]: the embeddings of one batch. *)
Definition embed_batch (fuel : nat) (batch : list (string * string * pyval))
  : Py.M World (list vector_item) :=
  Py.for_each batch []
    (fun item vector_data =>
       let '(id_, text, metadata) := item in
       (e <- generate_embedding fuel text ;;
        Py.ret (vector_data ++ [(id_, e, metadata)]))%py).

(** The body of the outer loop, for the batch that starts at index [i]. *)
Definition store_batch (fuel : nat) (text_data : list (string * string * pyval))
    (i : nat) (success : bool) : Py.M World bool :=
  let batch := slice text_data i (i + BATCH_SIZE) in
  (vector_data <- embed_batch fuel batch ;;
   batch_success <- W.call_upsert_vectors env vector_data ;;
   Py.ret (success && batch_success))%py.

Definition store_embeddings (fuel : nat) (text_data : list (string * string * pyval))
  : Py.M World bool :=
  Py.try_except
    (match text_data with
     | [] => Py.raise (ValueError "No text data provided for embedding storage")
     | _ => Py.for_each (range_step (length text_data) BATCH_SIZE) true
              (store_batch fuel text_data)
     end)
    (fun e => Py.raise (RuntimeError ("Failed to store embeddings: " +:+ str e))).

Definition search_similar (fuel : nat) (query_text : string) (top_k : Z)
    (filter_params : option pyval) : Py.M World (list Match) :=
  Py.try_except
    (if negb (PyBuiltins.nonempty query_text)
     then Py.raise (ValueError "Query text cannot be empty")
     else if (top_k <? 1)%Z
     then Py.raise (ValueError "top_k must be positive")
     else
       (query_embedding <- generate_embedding fuel query_text ;;
        W.call_query env query_embedding top_k filter_params)%py)
    (fun e => Py.raise (RuntimeError ("Failed to execute similarity search: " +:+ str e))).

End WithEnv.

(** [delete_embeddings] is synchronous and has no retry decorator.  The
    adapter is the oracle; the state is the list of its calls. *)
Definition delete_embeddings (adapter_delete : nat -> list pyval -> outcome bool)
    (vector_ids : list pyval) : Py.M (list (list pyval)) bool :=
  Py.try_except
    (if negb (PyBuiltins.truthy (VList vector_ids))
        || negb (forallb (fun id_ => PyBuiltins.isinstance id_ PyBuiltins.TStr) vector_ids)
     then Py.raise (ValueError "Invalid vector IDs provided")
     else fun calls => (adapter_delete (length calls) vector_ids, calls ++ [vector_ids]))
    (fun e => Py.raise (RuntimeError ("Failed to delete vectors: " +:+ str e))).

End Embeddings.

(** ** The [circuitbreaker] package

    [circuit(failure_threshold=..., recovery_timeout=..., name=...)] builds
    a [CircuitBreaker] object.  Its state changes only when a call is made
    through it ([call], or the function it decorates): a failure is counted
    and opens it at the threshold, a success closes it. *)

Module CircuitBreaker.

Inductive state := STATE_CLOSED | STATE_OPEN | STATE_HALF_OPEN.

Record t := {
  failure_threshold : nat;
  recovery_timeout : Z;              (* seconds *)
  breaker_name : string;
  _failure_count : nat;
  _state : state;
  _opened : Z                        (* clock reading when it last opened *)
}.

Definition circuit (threshold : nat) (timeout : Z) (nm : string) (now : Z) : t :=
  {| failure_threshold := threshold; recovery_timeout := timeout; breaker_name := nm;
     _failure_count := 0; _state := STATE_CLOSED; _opened := now |}.

Definition open_remaining (b : t) (now : Z) : Z :=
  (_opened b + recovery_timeout b * 1000000 - now)%Z.

Definition current_state (b : t) (now : Z) : state :=
  match _state b with
  | STATE_OPEN => if (open_remaining b now <=? 0)%Z then STATE_HALF_OPEN else STATE_OPEN
  | s => s
  end.

Definition opened (b : t) (now : Z) : bool :=
  match current_state b now with STATE_OPEN => true | _ => false end.

Definition call_succeeded (b : t) : t :=
  {| failure_threshold := failure_threshold b; recovery_timeout := recovery_timeout b;
     breaker_name := breaker_name b; _failure_count := 0; _state := STATE_CLOSED;
     _opened := _opened b |}.

Definition call_failed (b : t) (now : Z) : t :=
  let n := S (_failure_count b) in
  if failure_threshold b <=? n
  then {| failure_threshold := failure_threshold b; recovery_timeout := recovery_timeout b;
          breaker_name := breaker_name b; _failure_count := n; _state := STATE_OPEN;
          _opened := now |}
  else {| failure_threshold := failure_threshold b; recovery_timeout := recovery_timeout b;
          breaker_name := breaker_name b; _failure_count := n; _state := _state b;
          _opened := _opened b |}.

End CircuitBreaker.

(** ** core/agent.py *)

Module Agent.
Import PyBuiltins.

Definition MAX_CONTEXT_LENGTH : nat := 4096.
Definition MAX_SKILL_RETRIES : nat := 3.
Definition CONVERSATION_HISTORY_LIMIT : nat := 100.
Definition STATE_CLEANUP_INTERVAL : Z := 3600.
Definition METRICS_REPORTING_INTERVAL : Z := 60.

(** An entry of the conversation history. *)
Record Turn := { role : string; content : string; timestamp : string; context : dict }.

Record t := {
  _skill_registry : Skills.SkillRegistry;
  _state : dict;
  _conversation_history : list Turn;
  _circuit_breaker : CircuitBreaker.t
}.

(** [Agent.__init__] *)
Definition init (now : Z) : t :=
  {| _skill_registry := Skills.new_SkillRegistry;
     _state := [];
     _conversation_history := [];
     _circuit_breaker := CircuitBreaker.circuit 3 60 "agent_circuit_breaker" now |}.

Definition set_registry (r : Skills.SkillRegistry) (a : t) : t :=
  {| _skill_registry := r; _state := _state a;
     _conversation_history := _conversation_history a; _circuit_breaker := _circuit_breaker a |}.

Definition set_state (d : dict) (a : t) : t :=
  {| _skill_registry := _skill_registry a; _state := d;
     _conversation_history := _conversation_history a; _circuit_breaker := _circuit_breaker a |}.

Definition set_history (h : list Turn) (a : t) : t :=
  {| _skill_registry := _skill_registry a; _state := _state a;
     _conversation_history := h; _circuit_breaker := _circuit_breaker a |}.

(** The agent together with the world it runs in. *)
Definition Sys : Type := t * World.

Definition in_world {A} (m : Py.M World A) : Py.M Sys A :=
  Py.zoom snd (fun w s => (fst s, w)) m.

Definition in_agent {A} (m : Py.M t A) : Py.M Sys A :=
  Py.zoom fst (fun a s => (a, snd s)) m.

Definition sleep (seconds : Z) (s : Sys) : Sys := (fst s, W.sleep seconds (snd s)).

(** The decorator of [process_request]. *)
Definition retry3 {A} (fuel : nat) (f : Py.M Sys A) : Py.M Sys A :=
  Tenacity.retry fuel (Tenacity.wait_exponential 1 4 60) sleep
    (Tenacity.stop_after_attempt 3) f.

(** *** Conversation history *)

(** [history.append(turn)], then [history.pop(0)] when over the limit. *)
Definition append_turn (turn : Turn) (h : list Turn) : list Turn :=
  let h' := h ++ [turn] in
  if CONVERSATION_HISTORY_LIMIT <? length h' then drop 1 h' else h'.

(** [history = history[-CONVERSATION_HISTORY_LIMIT:]] when over the limit. *)
Definition trim_history (h : list Turn) : list Turn :=
  if CONVERSATION_HISTORY_LIMIT <? length h
  then drop (length h - CONVERSATION_HISTORY_LIMIT) h
  else h.

(** The response of [process_request]. *)
Record Response := {
  results : list pyval;
  execution_time : Z;                 (* microseconds *)
  skills_executed : nat;
  response_timestamp : string
}.

Section WithEnv.
Variable cfg : Settings.
Variable env : Services.

(** The entry that a request adds; [context or {}] is the context unless
    it is [None] or empty. *)
Definition user_turn (now : Z) (request : string) (context : option dict) : Turn :=
  {| role := "user";
     content := request;
     timestamp := isoformat env now;
     context := match context with Some (_ :: _ as c) => c | _ => [] end |}.

Definition _update_conversation_history (request : string) (context : option dict)
  : Py.M Sys unit :=
  Py.try_except
    (now <- in_world W.now ;;
     in_agent (Py.modify (fun a =>
       set_history (append_turn (user_turn now request context) (_conversation_history a)) a)))%py
    (fun _ => Py.ret tt).

(** One turn of the [while True] loop of [_cleanup_state]. *)
Definition cleanup_iteration (s : Sys) : Sys :=
  let s' := sleep STATE_CLEANUP_INTERVAL s in
  (set_history (trim_history (_conversation_history (fst s'))) (fst s'), snd s').

(** [_cleanup_state]: the loop has no exit. *)
Fixpoint _cleanup_state (fuel : nat) : Py.M Sys unit :=
  fun s =>
    match fuel with
    | O => (Pending, s)
    | S fuel' => _cleanup_state fuel' (cleanup_iteration s)
    end.

(** *** Security context *)

Definition security_required_fields : list string := ["user_id"; "access_level"; "timestamp"].

Definition EXPIRY_MICROS : Z := 300 * 1000000.

Definition _validate_security_context (security_context : dict) : Py.M Sys unit :=
  match find (fun field => negb (dict_in field security_context)) security_required_fields with
  | Some field => Py.raise (ValueError ("Missing required security field: " +:+ field))
  | None =>
      match dict_get security_context "timestamp" with
      | Some (VStr ts) =>
          match fromisoformat env ts with
          | None => Py.raise (ValueError ("Invalid isoformat string: " +:+ repr_str ts))
          | Some request_time =>
              (now <- in_world W.now ;;
               match tzinfo request_time with
               | Some _ =>
                   Py.raise (TypeError "can't subtract offset-naive and offset-aware datetimes")
               | None =>
                   if (EXPIRY_MICROS <? now - micros request_time)%Z
                   then Py.raise (ValueError "Security context has expired")
                   else Py.ret tt
               end)%py
          end
      | _ => Py.raise (TypeError "fromisoformat: argument must be str")
      end
  end.

(** [if security_context: self._validate_security_context(security_context)] *)
Definition check_security (security_context : option dict) : Py.M Sys unit :=
  match security_context with
  | Some sc => if truthy (VDict sc) then _validate_security_context sc else Py.ret tt
  | None => Py.ret tt
  end.

(** *** Retrieval context *)

(** [{"role": conv["metadata"]["role"], "content": conv["metadata"]["content"]}] *)
Definition subscript (v : pyval) (k : string) : exn + pyval :=
  match v with
  | VDict d => match dict_get d k with Some x => inr x | None => inl (KeyError k) end
  | _ => inl (TypeError "object is not subscriptable with a string key")
  end.

Definition project (conv : Match) : exn + dict :=
  match subscript (match_metadata conv) "role" with
  | inl e => inl e
  | inr r =>
      match subscript (match_metadata conv) "content" with
      | inl e => inl e
      | inr c => inr [("role", r); ("content", c)]
      end
  end.

Fixpoint project_all (l : list Match) : exn + list dict :=
  match l with
  | [] => inr []
  | conv :: l' =>
      match project conv with
      | inl e => inl e
      | inr d => match project_all l' with inl e => inl e | inr ds => inr (d :: ds) end
      end
  end.

Definition get_conversation_context (fuel : nat) (request : string)
    (security_context : option dict) : Py.M Sys (list dict) :=
  Py.try_except
    (check_security security_context ;;;
     request_embedding <- in_world (Embeddings.generate_embedding cfg env fuel request) ;;
     similar_conversations <- in_world (Embeddings.search_similar cfg env fuel request 5 None) ;;
     match project_all similar_conversations with
     | inl e => Py.raise e
     | inr ctx => Py.ret ctx
     end)%py
    (fun _ => Py.ret []).

(** *** Skills *)

Definition execute_skill (skill_name : string) (inputs : dict) : Py.M Sys pyval :=
  Py.try_except
    (s <- Py.get ;;
     match Skills.get_skill (_skill_registry (fst s)) skill_name with
     | None => Py.raise (ValueError ("Skill not found: " +:+ skill_name))
     | Some skill =>
         if CircuitBreaker.opened (_circuit_breaker (fst s)) (clock (snd s))
         then Py.raise (RuntimeError "Circuit breaker is open")
         else
           let '(is_valid, error_msg) := Skills.validate_inputs skill inputs in
           if negb is_valid
           then Py.raise (ValueError ("Invalid inputs: " +:+ default "None" error_msg))
           else in_world (W.call_skill_execute env skill inputs)
     end)%py
    (fun e => Py.raise e).

Definition _select_skills (request_embedding : embedding) : Py.M Sys (list Skills.Skill) :=
  Py.try_except
    (s <- Py.get ;; Py.ret (take 3 (Skills.list_skills (_skill_registry (fst s)))))%py
    (fun _ => Py.ret []).

(** *** Agent state *)

Definition update_state (fuel : nat) (new_state : pyval) : Py.M Sys bool :=
  Py.try_except
    (match new_state with
     | VDict d =>
         ((if MAX_CONTEXT_LENGTH <? len_str new_state
           then _cleanup_state fuel else Py.ret tt) ;;;
          in_agent (Py.modify (fun a => set_state (dict_update (_state a) d) a)) ;;;
          Py.ret true)%py
     | _ => Py.raise (ValueError "Invalid state format")
     end)
    (fun _ => Py.ret false).

(** [len(str(self._state))], the size that [_report_metrics] logs. *)
Definition state_size (a : t) : nat := len_str (VDict (_state a)).

(** *** The request pipeline *)

Definition process_request_attempt (fuel : nat) (request : pyval) (context : option dict)
    (security_context : option dict) : Py.M Sys Response :=
  (start_time <- in_world W.now ;;
   Py.try_except
     (if negb (truthy request) || negb (isinstance request TStr)
      then Py.raise (ValueError "Invalid request format")
      else
        match request with
        | VStr req =>
            (check_security security_context ;;;
             _update_conversation_history req context ;;;
             request_embedding <- in_world (Embeddings.generate_embedding cfg env fuel req) ;;
             conversation_context <- get_conversation_context fuel req security_context ;;
             relevant_skills <- _select_skills request_embedding ;;
             results <- Py.for_each relevant_skills []
               (fun skill results =>
                  Py.try_except
                    (skill_result <-
                       execute_skill (Skills.name skill)
                         [("request", VStr req);
                          ("context", VList (map VDict conversation_context))] ;;
                     Py.ret (results ++ [skill_result]))
                    (fun _ => Py.ret results)) ;;
             t1 <- in_world W.now ;;
             update_state fuel
               (VDict [("last_request", VStr req); ("last_results", VList results);
                       ("timestamp", VStr (isoformat env t1))]) ;;;
             t2 <- in_world W.now ;;
             in_world (W.inc "agent_requests_total/process_request/success") ;;;
             Py.ret {| results := results;
                       execution_time := (t2 - start_time)%Z;
                       skills_executed := length results;
                       response_timestamp := isoformat env t2 |})
        | _ => Py.raise (TypeError "request is not a string")
        end)
     (fun e =>
        in_world (W.inc "agent_requests_total/process_request/error") ;;;
        Py.raise (RuntimeError ("Failed to process request: " +:+ str e))))%py.

Definition process_request (fuel : nat) (request : pyval) (context : option dict)
    (security_context : option dict) : Py.M Sys Response :=
  retry3 fuel (process_request_attempt fuel request context security_context).

End WithEnv.
End Agent.

(** ** routes/agent.py

    The request models and the two handlers that call the agent.  A handler
    builds a new [Agent] for every request; the [HTTPException] it raises
    is the 500 response that the client receives. *)

Module Routes.
Import PyBuiltins.

Definition MAX_REQUEST_LENGTH : nat := 10 * 1000.

(** [ProcessRequestModel.validate_request] *)
Definition validate_request (v : string) : string + string :=
  if negb (nonempty v) || negb (nonempty (strip v)) then inl "Request cannot be empty"
  else if MAX_REQUEST_LENGTH <? String.length v then inl "Request exceeds maximum length"
  else inr (strip v).

(** [ExecuteSkillModel.validate_skill_name] *)
Definition validate_skill_name (v : string) : string + string :=
  if negb (nonempty v) || negb (nonempty (strip v)) then inl "Skill name cannot be empty"
  else inr (strip v).

Inductive http_response (A : Type) :=
| Http200 (data : A) (processing_time : Z)
| Http500 (cause : exn).
Arguments Http200 {A} data processing_time.
Arguments Http500 {A} cause.

(** The security context that the [/process] handler passes to the agent. *)
Definition route_security_context (iso : Z -> string) (token correlation_id : string) (now : Z)
  : dict :=
  [("token", VStr token); ("correlation_id", VStr correlation_id);
   ("timestamp", VStr (iso now))].

Section WithEnv.
Variable cfg : Settings.
Variable env : Services.

(** Run a method of a new agent in the world and drop the agent. *)
Definition with_new_agent {A} (m : Py.M Agent.Sys A) : Py.M World A :=
  fun w => let (r, s') := m (Agent.init (clock w), w) in (r, snd s').

Definition process_request (fuel : nat) (request : string) (context : dict)
    (correlation_id token : string) : Py.M World (http_response Agent.Response) :=
  (start_time <- W.now ;;
   Py.try_except
     (now <- W.now ;;
      response <- with_new_agent
                    (Agent.process_request cfg env fuel (VStr request) (Some context)
                       (Some (route_security_context (isoformat env) token correlation_id now))) ;;
      t1 <- W.now ;;
      W.inc "agent_api_requests_total/process_request/success" ;;;
      Py.ret (Http200 response (t1 - start_time)%Z))
     (fun e =>
        W.inc "agent_api_requests_total/process_request/error" ;;;
        Py.ret (Http500 e)))%py.

Definition execute_skill (skill_name : string) (inputs : dict)
  : Py.M World (http_response pyval) :=
  (start_time <- W.now ;;
   Py.try_except
     (result <- with_new_agent (Agent.execute_skill env skill_name inputs) ;;
      t1 <- W.now ;;
      W.inc "agent_api_requests_total/execute_skill/success" ;;;
      Py.ret (Http200 result (t1 - start_time)%Z))
     (fun e =>
        W.inc "agent_api_requests_total/execute_skill/error" ;;;
        Py.ret (Http500 e)))%py.

End WithEnv.
End Routes.

(** ** A concrete environment for the examples *)

Module Demo.

Definition cfg : Settings :=
  {| embedding_dimension := 2; max_concurrent_requests := 10; model := "gpt-4" |}.

(** Two time stamps are known to the parser: midnight, and 301 seconds later. *)
Definition parse (ts : string) : option datetime :=
  if String.eqb ts "2024-01-01T00:00:00" then Some {| micros := 0; tzinfo := None |}
  else if String.eqb ts "2024-01-01T00:05:01" then Some {| micros := 301000000; tzinfo := None |}
  else None.

(** Clients that answer every call. *)
Definition env : Services :=
  {| create_embedding := fun _ _ => Returned [1%Q; 0%Q];
     create_completion := fun _ _ _ _ _ => Returned "done";
     upsert_vectors := fun _ _ => Returned true;
     pinecone_query := fun _ _ _ _ => Returned [];
     skill_execute := fun _ _ _ => Returned (VDict [("result", VStr "done")]);
     isoformat := fun t => pretty t;
     fromisoformat := parse |}.

(** The same, with a skill whose execution always fails. *)
Definition env_failing_skill : Services :=
  {| create_embedding := create_embedding env;
     create_completion := create_completion env;
     upsert_vectors := upsert_vectors env;
     pinecone_query := pinecone_query env;
     skill_execute := fun _ _ _ => Raised (ServiceError "model unavailable");
     isoformat := isoformat env;
     fromisoformat := fromisoformat env |}.

(** The same, with a vector store that reports [False] for its second batch. *)
Definition env_second_batch_false : Services :=
  {| create_embedding := create_embedding env;
     create_completion := create_completion env;
     upsert_vectors := fun n _ => Returned (negb (n =? 1));
     pinecone_query := pinecone_query env;
     skill_execute := skill_execute env;
     isoformat := isoformat env;
     fromisoformat := fromisoformat env |}.


Definition skill : Skills.Skill :=
  {| Skills.name := "summarize";
     Skills.description := "Summarize a text";
     Skills.category := Skills.TEXT_PROCESSING;
     Skills.prompt_template := [("base", "Summarize: {request}")];
     Skills.input_schema := [];
     Skills.output_schema := [];
     Skills.metadata := [];
     Skills.performance_metrics := Skills.initial_performance_metrics;
     Skills.error_counts := Skills.initial_error_counts;
     Skills.security_config := Skills.initial_security_config |}.

Definition world : World := W.init cfg 301000000.

(** A fresh agent, and one with [skill] registered. *)
Definition sys : Agent.Sys := (Agent.init 0, world).

Definition sys_with_skill : Agent.Sys :=
  (Agent.set_registry (snd (Skills.register_skill "0" skill Skills.new_SkillRegistry))
     (Agent.init 0), world).

(** 250 items to store. *)
Definition items (n : nat) : list (string * string * pyval) :=
  map (fun k => (pretty k, "text", VDict [])) (seq 0 n).

End Demo.

(** ** Vocabulary of the statements *)

(** The operations that touch the history: a request appends a turn, and
    a pass of the cleanup loop sleeps and trims. *)
Inductive history_op :=
| Append (request : string) (context : option PyBuiltins.dict)
| CleanupPass.

Definition history_step (env : Services) (op : history_op) (s : Agent.Sys) : Agent.Sys :=
  match op with
  | Append request context => snd (Agent._update_conversation_history env request context s)
  | CleanupPass => Agent.cleanup_iteration s
  end.

Definition run_history (env : Services) (ops : list history_op) (s : Agent.Sys) : Agent.Sys :=
  fold_left (fun s op => history_step env op s) ops s.

(** The turns that the operations append, given the clock at the start. *)
Fixpoint appended (env : Services) (now : Z) (ops : list history_op) : list Agent.Turn :=
  match ops with
  | [] => []
  | Append request context :: ops' =>
      Agent.user_turn env now request context :: appended env now ops'
  | CleanupPass :: ops' =>
      appended env (now + Agent.STATE_CLEANUP_INTERVAL * 1000000)%Z ops'
  end.

(** The [n] most recent entries of a list. *)
Definition most_recent {A} (n : nat) (l : list A) : list A := drop (length l - n) l.

(** A validator of [LLMRequest] rejects its argument. *)
Definition rejected {A} (r : string + A) : Prop := exists msg, r = inl msg.

(** The labels of the counters that the handlers increment. *)
Definition validation_error_label : string :=
  "llm_request_failures_total/generate_text/validation_error".

Definition request_error_label : string := "agent_requests_total/process_request/error".

Definition count_request_error (s : Agent.Sys) : Agent.Sys :=
  (fst s, W.set_counters (counters (snd s) ++ [request_error_label]) (snd s)).

(** [n] calls of [execute_skill] in a row. *)
Fixpoint repeat_execute_skill (env : Services) (skill_name : string) (inputs : PyBuiltins.dict)
    (n : nat) (s : Agent.Sys) : Agent.Sys :=
  match n with
  | O => s
  | S n' => repeat_execute_skill env skill_name inputs n'
              (snd (Agent.execute_skill env skill_name inputs s))
  end.

(** The identifier and metadata of an item, before and after embedding. *)
Definition item_key {A} (item : string * A * pyval) : string * pyval :=
  (fst (fst item), snd item).

(** The embedding provider answers every call with a vector of the
    configured dimension. *)
Definition provider_answers (cfg : Settings) (env : Services) : Prop :=
  forall n text, exists e,
    create_embedding env n text = Returned e /\ length e = embedding_dimension cfg.

Definition texts_nonempty (text_data : list (string * string * pyval)) : Prop :=
  Forall (fun item => snd (fst item) <> EmptyString) text_data.

(** The label of the failure counter that [generate_text] increments in
    its [except Exception] handler. *)
Definition service_error_label : string :=
  "llm_request_failures_total/generate_text/service_error".

(** The answers of the vector-store adapter to the calls number [first],
    [first + 1], ... made with the batches [sent]. *)
Fixpoint upsert_answers (env : Services) (first : nat) (sent : list (list vector_item))
  : list (outcome bool) :=
  match sent with
  | [] => []
  | vector_data :: rest =>
      upsert_vectors env first vector_data :: upsert_answers env (S first) rest
  end.

Definition answered_true (r : outcome bool) : bool :=
  match r with
  | Returned b => b
  | _ => false
  end.

(** The vector-store adapter answers every call, with [True] or [False]. *)
Definition adapter_answers (env : Services) : Prop :=
  forall n vector_data, exists b, upsert_vectors env n vector_data = Returned b.

(** The ids of [delete_embeddings] that pass its check: a non-empty list
    of strings. *)
Definition valid_vector_ids (vector_ids : list pyval) : Prop :=
  vector_ids <> [] /\ Forall (fun id_ => exists s, id_ = VStr s) vector_ids.


Definition request_success_label : string := "agent_requests_total/process_request/success".

(** The state that [process_request] stores after a request that ran no skill. *)
Definition last_request_state (env : Services) (request : string) (now : Z) : PyBuiltins.dict :=
  [("last_request", VStr request); ("last_results", VList []);
   ("timestamp", VStr (isoformat env now))].

(** The vector store answers every query, with matches or with an error. *)
Definition store_answers (env : Services) : Prop :=
  forall n e top_k filter_params, pinecone_query env n e top_k filter_params <> Pending.

(** * Properties *)

Example repr_example :
  PyBuiltins.repr (VDict [("a", VInt (-12)); ("b", VList [VStr "x\y"; VNone; VBool false])])
  = "{'a': -12, 'b': ['x\\y', None, False]}"
  /\ String.length (PyBuiltins.repr (VStr "it's")) = 6.
Proof. split; vm_compute; reflexivity. Qed.

(** ** Conversation history *)

Section History.
Context {A : Type}.
Implicit Types l k : list A.

Lemma most_recent_length n l : length (most_recent n l) = Nat.min n (length l).
Proof. unfold most_recent. rewrite length_drop. lia. Qed.

Lemma most_recent_short n l : length l <= n -> most_recent n l = l.
Proof.
  intros H. unfold most_recent. replace (length l - n) with 0 by lia. reflexivity.
Qed.

Lemma most_recent_app n l k :
  most_recent n (most_recent n l ++ k) = most_recent n (l ++ k).
Proof.
  destruct (Nat.le_gt_cases (length l) n) as [Hle | Hgt].
  - now rewrite (most_recent_short n l).
  - unfold most_recent at 1 3.
    rewrite !length_app, most_recent_length, Nat.min_l by lia.
    unfold most_recent.
    rewrite !skipn_app, length_drop, drop_drop.
    f_equal; f_equal; lia.
Qed.

End History.

Lemma append_turn_recent (turn : Agent.Turn) (h : list Agent.Turn) :
  length h <= Agent.CONVERSATION_HISTORY_LIMIT ->
  Agent.append_turn turn h = most_recent Agent.CONVERSATION_HISTORY_LIMIT (h ++ [turn]).
Proof.
  intros H. unfold Agent.append_turn, most_recent.
  rewrite length_app. cbn [length].
  destruct (Nat.ltb_spec Agent.CONVERSATION_HISTORY_LIMIT (length h + 1)) as [Hlt | Hge].
  - replace (length h + 1 - Agent.CONVERSATION_HISTORY_LIMIT) with 1 by lia. reflexivity.
  - replace (length h + 1 - Agent.CONVERSATION_HISTORY_LIMIT) with 0 by lia. reflexivity.
Qed.

Lemma trim_history_recent (h : list Agent.Turn) :
  Agent.trim_history h = most_recent Agent.CONVERSATION_HISTORY_LIMIT h.
Proof.
  unfold Agent.trim_history, most_recent.
  destruct (Nat.ltb_spec Agent.CONVERSATION_HISTORY_LIMIT (length h)) as [Hlt | Hge].
  - reflexivity.
  - replace (length h - Agent.CONVERSATION_HISTORY_LIMIT) with 0 by lia. reflexivity.
Qed.

(** What one operation does to the history and to the clock. *)
Lemma history_step_history (env : Services) (op : history_op) (s : Agent.Sys) :
  length (Agent._conversation_history (fst s)) <= Agent.CONVERSATION_HISTORY_LIMIT ->
  Agent._conversation_history (fst (history_step env op s))
  = most_recent Agent.CONVERSATION_HISTORY_LIMIT
      (Agent._conversation_history (fst s) ++ appended env (clock (snd s)) [op]).
Proof.
  intros H. destruct s as [a w]. destruct op as [request context | ]; cbn.
  - now apply append_turn_recent.
  - rewrite app_nil_r. apply trim_history_recent.
Qed.

Lemma history_step_appended (env : Services) (op : history_op) (ops : list history_op)
    (s : Agent.Sys) :
  appended env (clock (snd s)) (op :: ops)
  = appended env (clock (snd s)) [op] ++ appended env (clock (snd (history_step env op s))) ops.
Proof. destruct s as [a w]. destruct op; reflexivity. Qed.

Lemma run_history_recent (env : Services) (ops : list history_op) (s : Agent.Sys) :
  length (Agent._conversation_history (fst s)) <= Agent.CONVERSATION_HISTORY_LIMIT ->
  Agent._conversation_history (fst (run_history env ops s))
  = most_recent Agent.CONVERSATION_HISTORY_LIMIT
      (Agent._conversation_history (fst s) ++ appended env (clock (snd s)) ops).
Proof.
  revert s. induction ops as [ | op ops IH]; intros s H.
  - cbn. rewrite app_nil_r. symmetry. now apply most_recent_short.
  - cbn [run_history fold_left]. fold (run_history env ops (history_step env op s)).
    pose proof (history_step_history env op s H) as Hstep.
    rewrite IH.
    + rewrite Hstep, most_recent_app, <- app_assoc.
      now rewrite <- history_step_appended.
    + rewrite Hstep, most_recent_length. lia.
Qed.

(** C3. Starting from a history within the limit (the agent starts with
    an empty one), after every prefix of a sequence of appended turns, in
    any interleaving with passes of the cleanup loop, the stored history
    has at most [CONVERSATION_HISTORY_LIMIT] = 100 entries, and these are
    exactly the most recent 100 of the initial entries followed by the
    appended turns, in their order of insertion. *)
Theorem history_bounded_most_recent (env : Services) (ops : list history_op)
    (s : Agent.Sys) (k : nat) :
  length (Agent._conversation_history (fst s)) <= Agent.CONVERSATION_HISTORY_LIMIT ->
  let s' := run_history env (take k ops) s in
  length (Agent._conversation_history (fst s')) <= 100
  /\ Agent._conversation_history (fst s')
     = most_recent 100
         (Agent._conversation_history (fst s) ++ appended env (clock (snd s)) (take k ops)).
Proof.
  intros H s'. subst s'.
  rewrite (run_history_recent env (take k ops) s H).
  split; [ | reflexivity ].
  rewrite most_recent_length. change Agent.CONVERSATION_HISTORY_LIMIT with 100. lia.
Qed.

(** A history that is too long, which the agent never builds, does not grow
    either: no operation makes the history longer than both the limit and
    its length before. *)
Lemma history_never_grows (env : Services) (ops : list history_op) (s : Agent.Sys) :
  length (Agent._conversation_history (fst (run_history env ops s)))
  <= Nat.max Agent.CONVERSATION_HISTORY_LIMIT (length (Agent._conversation_history (fst s))).
Proof.
  revert s. induction ops as [ | op ops IH ]; intros s; [ cbn; lia | ].
  cbn [run_history fold_left]. fold (run_history env ops (history_step env op s)).
  etransitivity; [ apply IH | ].
  apply Nat.max_lub; [ lia | ].
  destruct s as [a w]. destruct op as [request context | ]; cbn.
  - unfold Agent.append_turn. rewrite length_app. cbn [length].
    destruct (Nat.ltb_spec Agent.CONVERSATION_HISTORY_LIMIT
                (length (Agent._conversation_history a) + 1)).
    + rewrite length_drop, length_app. cbn [length]. lia.
    + rewrite length_app. cbn [length]. lia.
  - unfold Agent.trim_history.
    destruct (Nat.ltb_spec Agent.CONVERSATION_HISTORY_LIMIT
                (length (Agent._conversation_history a))).
    + rewrite length_drop. lia.
    + lia.
Qed.

Lemma update_conversation_history_returns (env : Services) request context (s : Agent.Sys) :
  fst (Agent._update_conversation_history env request context s) = Returned tt.
Proof. destruct s as [a w]. reflexivity. Qed.

Lemma history_bounded_most_recent_witness :
  let ops := map (fun n => Append (pretty n) None) (seq 0 102) in
  let s' := run_history Demo.env (take 102 ops) Demo.sys in
  length (Agent._conversation_history (fst s')) <= 100
  /\ Agent._conversation_history (fst s')
     = most_recent 100
         (Agent._conversation_history (fst Demo.sys)
            ++ appended Demo.env (clock (snd Demo.sys)) (take 102 ops)).
Proof.
  apply (history_bounded_most_recent Demo.env
           (map (fun n => Append (pretty n) None) (seq 0 102)) Demo.sys 102).
  cbn. lia.
Defined.

(** After 102 requests the two oldest turns are gone. *)
Example history_evicts_oldest :
  let ops := map (fun n => Append (pretty n) None) (seq 0 102) in
  map Agent.content (Agent._conversation_history (fst (run_history Demo.env ops Demo.sys)))
  = map pretty (seq 2 100).
Proof. vm_compute. reflexivity. Qed.

(** ** Security context *)

Section SecurityContext.
Variable env : Services.
Implicit Types (sc : PyBuiltins.dict) (s : Agent.Sys).

Lemma validate_security_context_state sc s :
  snd (Agent._validate_security_context env sc s) = s.
Proof.
  destruct s as [a w]. unfold Agent._validate_security_context.
  destruct (find _ _); [ reflexivity | ].
  destruct (PyBuiltins.dict_get sc "timestamp") as [ [ | | | | ts | | ] | ]; try reflexivity.
  destruct (fromisoformat env ts) as [ [m [off | ] ] | ]; try reflexivity.
  cbn. destruct (_ <? _)%Z; reflexivity.
Qed.



(** A context that is at most 300 seconds old is accepted. *)
Lemma security_context_fresh sc s ts issued :
  PyBuiltins.dict_in "user_id" sc = true ->
  PyBuiltins.dict_in "access_level" sc = true ->
  PyBuiltins.dict_get sc "timestamp" = Some (VStr ts) ->
  fromisoformat env ts = Some {| micros := issued; tzinfo := None |} ->
  (clock (snd s) - issued <= 300 * 1000000)%Z ->
  Agent._validate_security_context env sc s = (Returned tt, s).
Proof.
  intros Hu Ha Ht Hparse Hfresh.
  destruct s as [a w]. unfold Agent._validate_security_context.
  assert (PyBuiltins.dict_in "timestamp" sc = true) as Htin
    by (unfold PyBuiltins.dict_in; now rewrite Ht).
  cbn [find Agent.security_required_fields]. rewrite Hu, Ha, Htin. cbn [negb].
  rewrite Ht, Hparse. cbn.
  destruct (Z.ltb_spec Agent.EXPIRY_MICROS (clock w - issued)) as [ Hlt | _ ].
  - cbn in Hfresh. unfold Agent.EXPIRY_MICROS in Hlt. lia.
  - reflexivity.
Qed.

End SecurityContext.


(** [process_request] and [get_conversation_context] call the validation
    only for a context that is not empty. *)
Example empty_security_context_not_validated :
  Agent.check_security Demo.env (Some []) Demo.sys = (Returned tt, Demo.sys)
  /\ Agent.check_security Demo.env None Demo.sys = (Returned tt, Demo.sys).
Proof. split; reflexivity. Qed.


Example process_request_expired_context :
  let sc := [("user_id", VStr "u1"); ("access_level", VStr "admin");
             ("timestamp", VStr "2024-01-01T00:00:00")] in
  let r := Agent.process_request Demo.cfg Demo.env 3 (VStr "hello") None (Some sc) Demo.sys in
  fst r = Raised (RetryError
                    (RuntimeError "Failed to process request: Security context has expired"))
  /\ Agent._conversation_history (fst (snd r)) = [].
Proof. vm_compute. split; reflexivity. Qed.

(** ** Skill registry *)

Lemma validate_skill_config_typed (skill : Skills.Skill) :
  Skills.validate_skill_config (Skills.Skill_dict skill) = (true, None).
Proof. destruct skill as [n d c p i o m pm ec sc]. destruct c; reflexivity. Qed.

Lemma set_lock_release (r : Skills.SkillRegistry) :
  Skills._registry_lock r = false ->
  Skills.set_lock false (Skills.set_lock true r) = r.
Proof. destruct r as [sk me lk]. cbn. intros ->. reflexivity. Qed.

(** C7. On a registry whose lock is free, registering a skill whose name
    is already registered returns [(False, "Skill already exists: ...")]
    and leaves the registry, its skill map and its metrics map as they
    were. *)
Theorem register_skill_duplicate (registered_at : string) (skill : Skills.Skill)
    (r : Skills.SkillRegistry) :
  Skills._registry_lock r = false ->
  is_Some (Skills._skills r !! Skills.name skill) ->
  Skills.register_skill registered_at skill r
  = (Returned (false, Some ("Skill already exists: " +:+ Skills.name skill)), r)
  /\ Skills._skills (snd (Skills.register_skill registered_at skill r)) = Skills._skills r
  /\ Skills._metrics (snd (Skills.register_skill registered_at skill r)) = Skills._metrics r.
Proof.
  intros Hfree Hdup.
  assert (Skills.register_skill registered_at skill r
          = (Returned (false, Some ("Skill already exists: " +:+ Skills.name skill)), r)) as Heq.
  { unfold Skills.register_skill, Py.try_except, Skills.with_registry_lock.
    rewrite Hfree, validate_skill_config_typed.
    unfold Py.finally, Py.bind, Py.get. cbn.
    rewrite bool_decide_eq_true_2 by assumption. cbn.
    now rewrite set_lock_release. }
  rewrite Heq. auto.
Qed.

Lemma register_skill_duplicate_witness :
  let r := snd (Skills.register_skill "0" Demo.skill Skills.new_SkillRegistry) in
  Skills.register_skill "1" Demo.skill r
  = (Returned (false, Some ("Skill already exists: " +:+ Skills.name Demo.skill)), r)
  /\ Skills._skills (snd (Skills.register_skill "1" Demo.skill r)) = Skills._skills r
  /\ Skills._metrics (snd (Skills.register_skill "1" Demo.skill r)) = Skills._metrics r.
Proof.
  apply (register_skill_duplicate "1" Demo.skill
           (snd (Skills.register_skill "0" Demo.skill Skills.new_SkillRegistry))).
  - reflexivity.
  - vm_compute. eauto.
Defined.

(** A first registration on a free registry succeeds and frees the lock. *)
Lemma register_skill_fresh (registered_at : string) (skill : Skills.Skill)
    (r : Skills.SkillRegistry) :
  Skills._registry_lock r = false ->
  Skills._skills r !! Skills.name skill = None ->
  Skills.register_skill registered_at skill r
  = (Returned (true, None), Skills.insert_skill registered_at skill r).
Proof.
  intros Hfree Hnew.
  unfold Skills.register_skill, Py.try_except, Skills.with_registry_lock.
  rewrite Hfree, validate_skill_config_typed.
  unfold Py.finally, Py.bind, Py.get. cbn.
  rewrite bool_decide_eq_false_2 by (rewrite Hnew; apply is_Some_None).
  cbn. destruct r as [sk me lk]. cbn in *. subst lk. reflexivity.
Qed.

(** While the lock is held, [register_skill] does not return. *)
Lemma register_skill_blocked (registered_at : string) (skill : Skills.Skill)
    (r : Skills.SkillRegistry) :
  Skills._registry_lock r = true ->
  Skills.register_skill registered_at skill r = (Pending, r).
Proof.
  intros Hheld. unfold Skills.register_skill, Py.try_except, Skills.with_registry_lock.
  now rewrite Hheld.
Qed.

(** C10. On a registry whose lock is free, [bulk_register] of a non-empty
    list of skills that all pass [validate_skill_config] does not return:
    it takes the lock, and the first [register_skill] waits for the same
    lock.  No skill has been registered and the lock stays held. *)
Theorem bulk_register_never_returns (registered_at : string) (skills : list Skills.Skill)
    (r : Skills.SkillRegistry) :
  skills <> [] ->
  Forall (fun skill => fst (Skills.validate_skill_config (Skills.Skill_dict skill)) = true) skills ->
  Skills._registry_lock r = false ->
  fst (Skills.bulk_register registered_at skills r) = Pending
  /\ Skills._skills (snd (Skills.bulk_register registered_at skills r)) = Skills._skills r
  /\ Skills._metrics (snd (Skills.bulk_register registered_at skills r)) = Skills._metrics r
  /\ Skills._registry_lock (snd (Skills.bulk_register registered_at skills r)) = true.
Proof.
  intros Hne Hvalid Hfree.
  destruct skills as [ | skill skills ]; [ congruence | ].
  assert (find (fun sk => negb (fst (Skills.validate_skill_config (Skills.Skill_dict sk))))
            (skill :: skills) = None) as Hfind.
  { destruct (find _ _) as [bad | ] eqn:Hbad; [ | reflexivity ].
    apply find_some in Hbad as [Hin Hneg].
    rewrite Forall_forall in Hvalid. apply list_elem_of_In, (Hvalid bad) in Hin.
    rewrite Hin in Hneg. discriminate. }
  unfold Skills.bulk_register, Py.try_except, Skills.with_registry_lock.
  rewrite Hfree, Hfind.
  cbn [Py.for_each]. unfold Py.finally, Py.bind.
  rewrite register_skill_blocked by reflexivity.
  destruct r as [sk me lk]. cbn. auto.
Qed.

Lemma bulk_register_never_returns_witness :
  fst (Skills.bulk_register "0" [Demo.skill] Skills.new_SkillRegistry) = Pending
  /\ Skills._skills (snd (Skills.bulk_register "0" [Demo.skill] Skills.new_SkillRegistry))
     = Skills._skills Skills.new_SkillRegistry
  /\ Skills._metrics (snd (Skills.bulk_register "0" [Demo.skill] Skills.new_SkillRegistry))
     = Skills._metrics Skills.new_SkillRegistry
  /\ Skills._registry_lock (snd (Skills.bulk_register "0" [Demo.skill] Skills.new_SkillRegistry))
     = true.
Proof.
  apply (bulk_register_never_returns "0" [Demo.skill] Skills.new_SkillRegistry).
  - discriminate.
  - repeat constructor.
  - reflexivity.
Defined.

(** An empty batch, or one with an invalid skill, returns and frees the lock. *)
Lemma bulk_register_empty (registered_at : string) (r : Skills.SkillRegistry) :
  Skills._registry_lock r = false ->
  Skills.bulk_register registered_at [] r = (Returned ∅, r).
Proof.
  intros Hfree. unfold Skills.bulk_register, Py.try_except, Skills.with_registry_lock.
  rewrite Hfree. cbn. now rewrite set_lock_release.
Qed.

(** ** The retry decorator *)

Section Retrying.
Context {St A : Type}.
Variables (wait : nat -> Z) (sleep : Z -> St -> St) (f : Py.M St A).

(** Without a [stop], a function whose every attempt raises is retried for
    ever; what the attempts and the sleeps preserve still holds. *)
Lemma retrying_never_stops (P : St -> Prop) :
  (forall s, P s -> exists e, fst (f s) = Raised e /\ P (snd (f s))) ->
  (forall z s, P s -> P (sleep z s)) ->
  forall fuel attempt s, P s ->
    fst (Tenacity.retrying fuel wait sleep Tenacity.stop_never attempt f s) = Pending
    /\ P (snd (Tenacity.retrying fuel wait sleep Tenacity.stop_never attempt f s)).
Proof.
  intros Hf Hsleep. induction fuel as [ | fuel IH ]; intros attempt s Hs.
  - cbn. auto.
  - cbn [Tenacity.retrying]. destruct (Hf s Hs) as (e & He & HP).
    destruct (f s) as [o s1]. cbn in He, HP. subst o. cbn [Tenacity.stops].
    apply IH. now apply Hsleep.
Qed.

(** With [stop_after_attempt 3], three failed attempts end in a [RetryError]. *)
Lemma retry_three_failures (e : exn) (after : St -> St) (fuel : nat) (s : St) :
  (forall s, f s = (Raised e, after s)) ->
  3 <= fuel ->
  Tenacity.retry fuel wait sleep (Tenacity.stop_after_attempt 3) f s
  = (Raised (RetryError e), after (sleep (wait 2) (after (sleep (wait 1) (after s))))).
Proof.
  intros Hf Hfuel.
  destruct fuel as [ | [ | [ | fuel ] ] ]; try lia.
  unfold Tenacity.retry.
  cbn [Tenacity.retrying]. rewrite Hf. cbn [Tenacity.stops Nat.leb].
  cbn [Tenacity.retrying]. rewrite Hf. cbn [Tenacity.stops Nat.leb].
  cbn [Tenacity.retrying]. rewrite Hf. reflexivity.
Qed.

(** A first attempt that returns is the result. *)
Lemma retry_first_attempt (p : Tenacity.stop_policy) (fuel : nat) (s s' : St) (a : A) :
  f s = (Returned a, s') ->
  Tenacity.retry (S fuel) wait sleep p f s = (Returned a, s').
Proof. intros Hf. unfold Tenacity.retry. cbn. now rewrite Hf. Qed.

End Retrying.

(** ** Language model adapter *)

Lemma counter_inc (label : string) (w : World) :
  W.counter label (W.set_counters (counters w ++ [label]) w) = S (W.counter label w).
Proof.
  unfold W.counter. cbn. rewrite filter_app, length_app. cbn.
  rewrite decide_True by reflexivity. cbn. lia.
Qed.

Lemma counter_sleep (label : string) (z : Z) (w : World) :
  W.counter label (W.sleep z w) = W.counter label w.
Proof. reflexivity. Qed.

Lemma invalid_arguments_error (p : string) (t : option Q) (m : option Z) (rid : option string) :
  LLM.valid_arguments p t m = false ->
  exists msg, LLM.new_LLMRequest p t m rid = inl (ValueError msg).
Proof.
  unfold LLM.valid_arguments, LLM.new_LLMRequest.
  destruct (LLM.validate_prompt p), (LLM.validate_temperature t), (LLM.validate_max_tokens m);
    intros H; try discriminate; eauto.
Qed.

Lemma validate_prompt_rejects (p : string) :
  rejected (LLM.validate_prompt p) <-> PyBuiltins.strip p = EmptyString.
Proof.
  unfold rejected, LLM.validate_prompt, PyBuiltins.nonempty.
  destruct (String.eqb_spec p EmptyString) as [-> | Hp]; cbn [negb orb].
  - split; eauto.
  - destruct (String.eqb_spec (PyBuiltins.strip p) EmptyString) as [Hs | Hs]; cbn [negb].
    + split; eauto.
    + split; [ intros [msg [=]] | contradiction ].
Qed.

Lemma validate_temperature_rejects (t : option Q) :
  rejected (LLM.validate_temperature t) <-> exists q, t = Some q /\ ~ (0 <= q /\ q <= 1)%Q.
Proof.
  unfold rejected, LLM.validate_temperature.
  destruct t as [q | ]; [ | split; [ intros [msg [=]] | intros (q & [=] & _) ] ].
  destruct (Qle_bool 0 q && Qle_bool q 1) eqn:Hb; cbn [negb].
  - apply andb_true_iff in Hb as [H0 H1]. apply Qle_bool_iff in H0, H1.
    split; [ intros [msg [=]] | intros (q' & [= <-] & Hn); tauto ].
  - split; [ intros _ | eauto ].
    exists q. split; [ reflexivity | ].
    intros [H0 H1]. apply Qle_bool_iff in H0, H1. rewrite H0, H1 in Hb. discriminate.
Qed.

Lemma validate_max_tokens_rejects (m : option Z) :
  rejected (LLM.validate_max_tokens m) <-> exists n, m = Some n /\ (n < 1)%Z.
Proof.
  unfold rejected, LLM.validate_max_tokens.
  destruct m as [n | ]; [ | split; [ intros [msg [=]] | intros (n & [=] & _) ] ].
  destruct (Z.ltb_spec n 1) as [Hn | Hn].
  - split; eauto.
  - split; [ intros [msg [=]] | intros (n' & [= <-] & Hlt); lia ].
Qed.

Lemma valid_arguments_spec (p : string) (t : option Q) (m : option Z) :
  LLM.valid_arguments p t m = false
  <-> PyBuiltins.strip p = EmptyString
      \/ (exists q, t = Some q /\ ~ (0 <= q /\ q <= 1)%Q)
      \/ (exists n, m = Some n /\ (n < 1)%Z).
Proof.
  rewrite <- validate_prompt_rejects, <- validate_temperature_rejects,
    <- validate_max_tokens_rejects.
  unfold LLM.valid_arguments, LLM.new_LLMRequest, rejected.
  destruct (LLM.validate_prompt p), (LLM.validate_temperature t), (LLM.validate_max_tokens m);
    split; eauto; try discriminate.
  intros [ [msg [=]] | [ [msg [=]] | [msg [=]] ] ].
Qed.

Section LanguageModel.
Variables (cfg : Settings) (env : Services).

Lemma generate_text_attempt_invalid p t m rid msg (w : World) :
  LLM.new_LLMRequest p t m rid = inl (ValueError msg) ->
  LLM.generate_text_attempt cfg env p t m rid w
  = (Raised (ValueError msg), W.set_counters (counters w ++ [validation_error_label]) w).
Proof.
  intros H. unfold LLM.generate_text_attempt, Py.try_except. rewrite H. reflexivity.
Qed.

(** C2, on the code.  A call of [generate_text] with an invalid argument
    never reaches the provider, but the retry decorator runs the
    validation three times and the caller receives a [RetryError], not the
    [ValueError] of the validation. *)
Theorem generate_text_invalid_arguments p t m rid (fuel : nat) (w : World) :
  LLM.valid_arguments p t m = false ->
  3 <= fuel ->
  exists msg w',
    LLM.generate_text cfg env fuel p t m rid w = (Raised (RetryError (ValueError msg)), w')
    /\ completion_calls w' = completion_calls w
    /\ W.counter validation_error_label w' = 3 + W.counter validation_error_label w.
Proof.
  intros Hinvalid Hfuel.
  destruct (invalid_arguments_error p t m rid Hinvalid) as [msg Hmsg].
  exists msg. eexists. split; [ | split ].
  - unfold LLM.generate_text, LLM.retry3.
    apply (retry_three_failures _ _ _ (ValueError msg)
             (fun w => W.set_counters (counters w ++ [validation_error_label]) w)).
    + intros w0. now apply generate_text_attempt_invalid.
    + exact Hfuel.
  - reflexivity.
  - rewrite counter_inc, counter_sleep, counter_inc, counter_sleep, counter_inc. lia.
Qed.

(** Valid arguments reach the provider once, with the trimmed prompt. *)
Lemma generate_text_valid p t m rid (fuel : nat) (w : World) request completion :
  LLM.new_LLMRequest p t m rid = inr request ->
  rate_limiter w <> 0 ->
  create_completion env (length (completion_calls w)) (LLM.prompt request)
    (LLM.temperature request) (LLM.max_tokens request) (model cfg) = Returned completion ->
  fst (LLM.generate_text cfg env (S fuel) p t m rid w) = Returned completion
  /\ completion_calls (snd (LLM.generate_text cfg env (S fuel) p t m rid w))
     = completion_calls w ++ [(LLM.prompt request, LLM.temperature request,
                               LLM.max_tokens request, model cfg)].
Proof.
  intros Hreq Hpermit Hcall.
  assert (exists w', LLM.generate_text_attempt cfg env p t m rid w = (Returned completion, w')
                     /\ completion_calls w'
                        = completion_calls w ++ [(LLM.prompt request, LLM.temperature request,
                                                  LLM.max_tokens request, model cfg)])
    as (w' & Hattempt & Hcalls).
  { unfold LLM.generate_text_attempt, Py.try_except. rewrite Hreq.
    unfold LLM.with_rate_limiter. destruct (rate_limiter w) as [ | n ] eqn:Hn; [ congruence | ].
    unfold Py.finally, W.call_create_completion. cbn. rewrite Hcall.
    eexists. split; reflexivity. }
  unfold LLM.generate_text, LLM.retry3.
  rewrite (retry_first_attempt _ _ _ _ fuel w w' completion Hattempt).
  split; [ reflexivity | exact Hcalls ].
Qed.

(** [generate_embedding] has no [stop]: with an empty text no attempt
    succeeds, no call reaches the provider, and the call never returns. *)
Lemma generate_embedding_empty_never_returns (fuel : nat) (w : World) :
  fst (Embeddings.generate_embedding cfg env fuel EmptyString w) = Pending
  /\ embedding_calls (snd (Embeddings.generate_embedding cfg env fuel EmptyString w))
     = embedding_calls w.
Proof.
  unfold Embeddings.generate_embedding, Embeddings.retry_forever, Tenacity.retry.
  apply (retrying_never_stops _ _ _ (fun w' => embedding_calls w' = embedding_calls w)).
  - intros s Hs. eexists. split; [ reflexivity | exact Hs ].
  - intros z s Hs. exact Hs.
  - reflexivity.
Qed.

(** A provider that fails on every call is asked again and again. *)
Lemma generate_embedding_failing_provider (text : string) (fuel : nat) (w : World) :
  (forall n, exists e, create_embedding env n text = Raised e) ->
  fst (Embeddings.generate_embedding cfg env fuel text w) = Pending.
Proof.
  intros Hfail.
  unfold Embeddings.generate_embedding, Embeddings.retry_forever, Tenacity.retry.
  apply (retrying_never_stops _ _ _ (fun _ => True)); auto.
  intros s _. unfold Embeddings.generate_embedding_attempt, Py.try_except.
  destruct (negb (PyBuiltins.nonempty text)); [ cbn; eauto | ].
  unfold Py.bind, W.call_create_embedding.
  destruct (Hfail (length (embedding_calls s))) as [e He]. rewrite He. cbn. eauto.
Qed.

(** A provider that answers with a vector of the configured dimension. *)
Lemma generate_embedding_returns (text : string) (fuel : nat) (w : World) (e : embedding) :
  text <> EmptyString ->
  create_embedding env (length (embedding_calls w)) text = Returned e ->
  length e = embedding_dimension cfg ->
  Embeddings.generate_embedding cfg env (S fuel) text w
  = (Returned e, W.set_embedding_calls (embedding_calls w ++ [text]) w).
Proof.
  intros Htext He Hdim.
  unfold Embeddings.generate_embedding, Embeddings.retry_forever.
  apply retry_first_attempt.
  unfold Embeddings.generate_embedding_attempt, Py.try_except, PyBuiltins.nonempty.
  destruct (String.eqb_spec text EmptyString) as [ | _ ]; [ contradiction | ].
  cbn [negb]. unfold Py.bind, W.call_create_embedding. rewrite He, Hdim, Nat.eqb_refl.
  reflexivity.
Qed.

End LanguageModel.

Lemma generate_text_invalid_arguments_witness :
  exists msg w',
    LLM.generate_text Demo.cfg Demo.env 3 EmptyString None None None Demo.world
    = (Raised (RetryError (ValueError msg)), w')
    /\ completion_calls w' = completion_calls Demo.world
    /\ W.counter validation_error_label w' = 3 + W.counter validation_error_label Demo.world.
Proof.
  apply (generate_text_invalid_arguments Demo.cfg Demo.env EmptyString None None None 3 Demo.world).
  - reflexivity.
  - lia.
Defined.

(** A text of blanks passes the check of [generate_embedding] and is sent
    to the provider; [LanguageModel.get_embedding] rejects it. *)
Example generate_embedding_blank_text :
  embedding_calls (snd (Embeddings.generate_embedding Demo.cfg Demo.env 1 "  " Demo.world)) = ["  "]
  /\ LLM.get_embedding Demo.env "  " Demo.world
     = (Raised (RuntimeError "Embedding generation failed: Input text cannot be empty"),
        W.set_counters ["llm_request_failures_total/get_embedding/service_error"] Demo.world).
Proof. split; reflexivity. Qed.

(** ** The request pipeline *)

Section Pipeline.
Variables (cfg : Settings) (env : Services).

(** One attempt on a request that is not a non-empty string. *)
Lemma process_request_attempt_invalid (fuel : nat) (request : pyval) context security_context
    (s : Agent.Sys) :
  negb (PyBuiltins.truthy request) || negb (PyBuiltins.isinstance request PyBuiltins.TStr) = true ->
  Agent.process_request_attempt cfg env fuel request context security_context s
  = (Raised (RuntimeError "Failed to process request: Invalid request format"),
     count_request_error s).
Proof.
  intros Hbad. destruct s as [a w].
  unfold Agent.process_request_attempt, Py.bind, Py.try_except, Agent.in_world, Py.zoom.
  cbn [W.now fst snd]. rewrite Hbad. reflexivity.
Qed.

(** C5, on the code.  [process_request] with the empty string validates
    the request three times and ends with a [RetryError] that wraps a
    [RuntimeError]; it is not the [ValueError] of the validation.  The
    agent, and so its conversation history, is unchanged. *)
Theorem process_request_empty (fuel : nat) context security_context (s : Agent.Sys) :
  3 <= fuel ->
  exists s',
    Agent.process_request cfg env fuel (VStr EmptyString) context security_context s
    = (Raised (RetryError (RuntimeError "Failed to process request: Invalid request format")), s')
    /\ fst s' = fst s
    /\ Agent._conversation_history (fst s') = Agent._conversation_history (fst s)
    /\ W.counter request_error_label (snd s') = 3 + W.counter request_error_label (snd s).
Proof.
  intros Hfuel. eexists. split; [ | split; [ | split ] ].
  - unfold Agent.process_request, Agent.retry3.
    apply (retry_three_failures _ _ _
             (RuntimeError "Failed to process request: Invalid request format")
             count_request_error).
    + intros s0. now apply process_request_attempt_invalid.
    + exact Hfuel.
  - reflexivity.
  - reflexivity.
  - destruct s as [a w]. cbn [count_request_error Agent.sleep fst snd].
    rewrite counter_inc, counter_sleep, counter_inc, counter_sleep, counter_inc. lia.
Qed.

End Pipeline.

Lemma process_request_empty_witness :
  exists s',
    Agent.process_request Demo.cfg Demo.env 3 (VStr EmptyString) None None Demo.sys
    = (Raised (RetryError (RuntimeError "Failed to process request: Invalid request format")), s')
    /\ fst s' = fst Demo.sys
    /\ Agent._conversation_history (fst s') = Agent._conversation_history (fst Demo.sys)
    /\ W.counter request_error_label (snd s') = 3 + W.counter request_error_label (snd Demo.sys).
Proof.
  apply (process_request_empty Demo.cfg Demo.env 3 None None Demo.sys). lia.
Defined.

(** The exception that reaches the caller is not a [ValueError]. *)
Example process_request_empty_not_ValueError :
  match fst (Agent.process_request Demo.cfg Demo.env 3 (VStr EmptyString) None None Demo.sys) with
  | Raised e => is_ValueError e = false
  | _ => False
  end.
Proof. reflexivity. Qed.

(** ** Agent state *)

Lemma cleanup_iteration_state (s : Agent.Sys) :
  Agent._state (fst (Agent.cleanup_iteration s)) = Agent._state (fst s).
Proof. destruct s as [a w]. reflexivity. Qed.

(** The cleanup loop has no exit, and never touches the agent state. *)
Lemma cleanup_state_never_returns (fuel : nat) (s : Agent.Sys) :
  fst (Agent._cleanup_state fuel s) = Pending
  /\ Agent._state (fst (snd (Agent._cleanup_state fuel s))) = Agent._state (fst s).
Proof.
  revert s. induction fuel as [ | fuel IH ]; intros s.
  - cbn. auto.
  - cbn [Agent._cleanup_state]. destruct (IH (Agent.cleanup_iteration s)) as [H1 H2].
    split; [ exact H1 | ]. rewrite H2. apply cleanup_iteration_state.
Qed.

(** C6, on the code.  An update whose serialized size exceeds
    [MAX_CONTEXT_LENGTH] awaits the cleanup loop, which has no exit: the
    update never completes, nothing is merged and nothing is cleared. *)
Theorem update_state_oversize_never_completes (fuel : nat) (d : PyBuiltins.dict) (s : Agent.Sys) :
  Agent.MAX_CONTEXT_LENGTH < PyBuiltins.len_str (VDict d) ->
  fst (Agent.update_state fuel (VDict d) s) = Pending
  /\ Agent._state (fst (snd (Agent.update_state fuel (VDict d) s))) = Agent._state (fst s).
Proof.
  intros Hbig. unfold Agent.update_state, Py.try_except, Py.bind.
  apply Nat.ltb_lt in Hbig. rewrite Hbig.
  destruct (cleanup_state_never_returns fuel s) as [H1 H2].
  destruct (Agent._cleanup_state fuel s) as [o s']. cbn in H1, H2. subst o. cbn. auto.
Qed.

Lemma update_state_oversize_never_completes_witness :
  fst (Agent.update_state 5 (VDict [("k", VStr (PyBuiltins.str_mul "x" 4100))]) Demo.sys) = Pending
  /\ Agent._state (fst (snd (Agent.update_state 5
                               (VDict [("k", VStr (PyBuiltins.str_mul "x" 4100))]) Demo.sys)))
     = Agent._state (fst Demo.sys).
Proof.
  apply (update_state_oversize_never_completes 5
           [("k", VStr (PyBuiltins.str_mul "x" 4100))] Demo.sys).
  vm_compute. lia.
Defined.

(** An update within the limit is merged, whatever the size of the state. *)
Lemma update_state_small (fuel : nat) (d : PyBuiltins.dict) (s : Agent.Sys) :
  PyBuiltins.len_str (VDict d) <= Agent.MAX_CONTEXT_LENGTH ->
  Agent.update_state fuel (VDict d) s
  = (Returned true, (Agent.set_state (PyBuiltins.dict_update (Agent._state (fst s)) d) (fst s), snd s)).
Proof.
  intros Hsmall. unfold Agent.update_state, Py.try_except, Py.bind.
  destruct (Nat.ltb_spec Agent.MAX_CONTEXT_LENGTH (PyBuiltins.len_str (VDict d))); [ lia | ].
  destruct s as [a w]. reflexivity.
Qed.

(** Two updates within the limit leave a state above it. *)
Example state_not_bounded :
  let u1 := VDict [("a", VStr (PyBuiltins.str_mul "x" 4000))] in
  let u2 := VDict [("b", VStr (PyBuiltins.str_mul "x" 4000))] in
  let s1 := snd (Agent.update_state 0 u1 Demo.sys) in
  let r2 := Agent.update_state 0 u2 s1 in
  PyBuiltins.len_str u1 <= Agent.MAX_CONTEXT_LENGTH
  /\ PyBuiltins.len_str u2 <= Agent.MAX_CONTEXT_LENGTH
  /\ fst r2 = Returned true
  /\ Agent.MAX_CONTEXT_LENGTH < Agent.state_size (fst (snd r2)).
Proof. vm_compute. repeat split; lia. Qed.

(** ** Retrieval context *)

Section Retrieval.
Variables (cfg : Settings) (env : Services).

Lemma check_security_state security_context (s : Agent.Sys) :
  snd (Agent.check_security env security_context s) = s.
Proof.
  unfold Agent.check_security. destruct security_context as [sc | ]; [ | reflexivity ].
  destruct (PyBuiltins.truthy (VDict sc)); [ | reflexivity ].
  apply validate_security_context_state.
Qed.

(** C9, on the code.  When the embedding of the query text fails, by an
    empty text or by a provider that fails on every call, the retry
    without [stop] in [generate_embedding] keeps [get_conversation_context]
    from returning: the caller gets neither an empty context nor an error. *)
Theorem context_waits_for_embedding (fuel : nat) (request : string) security_context
    (s : Agent.Sys) :
  fst (Agent.check_security env security_context s) = Returned tt ->
  request = EmptyString \/ (forall n, exists e, create_embedding env n request = Raised e) ->
  fst (Agent.get_conversation_context cfg env fuel request security_context s) = Pending.
Proof.
  intros Hsec Hfail.
  unfold Agent.get_conversation_context, Py.try_except, Py.bind.
  pose proof (check_security_state security_context s) as Hs.
  destruct (Agent.check_security env security_context s) as [o s0].
  cbn in Hsec, Hs. subst o s0.
  unfold Agent.in_world at 1. unfold Py.zoom.
  assert (fst (Embeddings.generate_embedding cfg env fuel request (snd s)) = Pending) as Hpending.
  { destruct Hfail as [-> | Hfail].
    - apply generate_embedding_empty_never_returns.
    - now apply generate_embedding_failing_provider. }
  destruct (Embeddings.generate_embedding cfg env fuel request (snd s)) as [o w'].
  cbn in Hpending. subst o. reflexivity.
Qed.

(** A security context that is rejected gives the empty context. *)
Lemma context_empty_on_security_failure (fuel : nat) (request : string) security_context
    (s : Agent.Sys) (e : exn) :
  fst (Agent.check_security env security_context s) = Raised e ->
  Agent.get_conversation_context cfg env fuel request security_context s = (Returned [], s).
Proof.
  intros Hsec.
  unfold Agent.get_conversation_context, Py.try_except, Py.bind.
  pose proof (check_security_state security_context s) as Hs.
  destruct (Agent.check_security env security_context s) as [o s0].
  cbn in Hsec, Hs. subst o s0. reflexivity.
Qed.

(** With an embedding provider that answers, the result follows the
    similarity search: its matches are projected, and a failure of the
    search or of the projection gives the empty context. *)
Lemma context_after_embedding (fuel : nat) (request : string) security_context
    (s : Agent.Sys) (e : embedding) :
  fst (Agent.check_security env security_context s) = Returned tt ->
  request <> EmptyString ->
  (forall n, create_embedding env n request = Returned e) ->
  length e = embedding_dimension cfg ->
  fst (Agent.get_conversation_context cfg env (S fuel) request security_context s)
  = match pinecone_query env (length (query_calls (snd s))) e 5 None with
    | Returned similar =>
        match Agent.project_all similar with
        | inr ctx => Returned ctx
        | inl _ => Returned []
        end
    | Raised _ => Returned []
    | Pending => Pending
    end.
Proof.
  intros Hsec Htext He Hdim.
  unfold Agent.get_conversation_context, Py.try_except, Py.bind.
  pose proof (check_security_state security_context s) as Hs.
  destruct (Agent.check_security env security_context s) as [o s0].
  cbn in Hsec, Hs. subst o s0.
  destruct s as [a w]. unfold Agent.in_world, Py.zoom. cbn [fst snd].
  rewrite (generate_embedding_returns cfg env request fuel w e Htext (He _) Hdim).
  cbv beta iota. cbn [fst snd].
  unfold Embeddings.search_similar, Py.try_except, Py.bind, PyBuiltins.nonempty.
  destruct (String.eqb_spec request EmptyString) as [ | _ ]; [ contradiction | ].
  cbn [negb]. change (5 <? 1)%Z with false. cbv beta iota.
  rewrite (generate_embedding_returns cfg env request fuel _ e Htext (He _) Hdim).
  unfold W.call_query. cbn [query_calls W.set_embedding_calls fst snd].
  destruct (pinecone_query env (length (query_calls w)) e 5 None) as [similar | err | ];
    [ | reflexivity | reflexivity ].
  destruct (Agent.project_all similar); reflexivity.
Qed.

End Retrieval.

Lemma context_waits_for_embedding_witness :
  fst (Agent.get_conversation_context Demo.cfg Demo.env 7 EmptyString None Demo.sys) = Pending.
Proof.
  apply (context_waits_for_embedding Demo.cfg Demo.env 7 EmptyString None Demo.sys).
  - reflexivity.
  - left. reflexivity.
Defined.

(** ** Circuit breaker *)

(** What the breaker does when calls are made through it: three failures
    open it, and once the 60 seconds have passed a success closes it. *)
Example breaker_counts_reported_failures :
  let b0 := CircuitBreaker.circuit 3 60 "agent_circuit_breaker" 0 in
  let b3 := CircuitBreaker.call_failed (CircuitBreaker.call_failed
              (CircuitBreaker.call_failed b0 1000000) 2000000) 3000000 in
  CircuitBreaker.opened b0 0 = false
  /\ CircuitBreaker.opened b3 4000000 = true
  /\ CircuitBreaker.current_state b3 63000000 = CircuitBreaker.STATE_HALF_OPEN
  /\ CircuitBreaker.current_state (CircuitBreaker.call_succeeded b3) 63000000
     = CircuitBreaker.STATE_CLOSED.
Proof. repeat split; reflexivity. Qed.

Section Breaker.
Variable env : Services.
Implicit Types (s : Agent.Sys) (inputs : PyBuiltins.dict).

Lemma closed_not_opened (b : CircuitBreaker.t) (now : Z) :
  CircuitBreaker._state b = CircuitBreaker.STATE_CLOSED ->
  CircuitBreaker.opened b now = false.
Proof.
  intros H. unfold CircuitBreaker.opened, CircuitBreaker.current_state. now rewrite H.
Qed.

(** No path of [execute_skill] reports to the breaker, or changes the
    agent in any other way. *)
Lemma execute_skill_agent skill_name inputs s :
  fst (snd (Agent.execute_skill env skill_name inputs s)) = fst s.
Proof.
  destruct s as [a w].
  unfold Agent.execute_skill, Py.try_except, Py.bind, Py.get. cbn [fst snd].
  destruct (Skills.get_skill (Agent._skill_registry a) skill_name) as [skill | ];
    [ | reflexivity ].
  destruct (CircuitBreaker.opened _ _); [ reflexivity | ].
  destruct (Skills.validate_inputs skill inputs) as [ [ | ] msg ]; [ | reflexivity ].
  cbn [negb]. unfold Agent.in_world, Py.zoom, W.call_skill_execute. cbn [fst snd].
  destruct (skill_execute env _ skill inputs); reflexivity.
Qed.

(** A call on a registered skill with valid inputs, while the breaker is
    not open, invokes the skill and passes its failure on. *)
Lemma execute_skill_invokes skill_name inputs skill s (e : exn) :
  Skills.get_skill (Agent._skill_registry (fst s)) skill_name = Some skill ->
  fst (Skills.validate_inputs skill inputs) = true ->
  CircuitBreaker.opened (Agent._circuit_breaker (fst s)) (clock (snd s)) = false ->
  skill_execute env (length (skill_calls (snd s))) skill inputs = Raised e ->
  Agent.execute_skill env skill_name inputs s
  = (Raised e,
     (fst s, W.set_skill_calls (skill_calls (snd s) ++ [(Skills.name skill, inputs)]) (snd s))).
Proof.
  intros Hskill Hvalid Hclosed Hfail. destruct s as [a w]. cbn [fst snd] in *.
  unfold Agent.execute_skill, Py.try_except, Py.bind, Py.get. cbn [fst snd].
  rewrite Hskill, Hclosed.
  destruct (Skills.validate_inputs skill inputs) as [ok msg]. cbn in Hvalid. subst ok.
  cbn [negb]. unfold Agent.in_world, Py.zoom, W.call_skill_execute. cbn [fst snd].
  rewrite Hfail. reflexivity.
Qed.

Lemma repeat_execute_skill_agent skill_name inputs n s :
  fst (repeat_execute_skill env skill_name inputs n s) = fst s.
Proof.
  revert s. induction n as [ | n IH ]; intros s; [ reflexivity | ].
  cbn [repeat_execute_skill]. rewrite IH. apply execute_skill_agent.
Qed.

Lemma repeat_execute_skill_calls skill_name inputs skill n s :
  Skills.get_skill (Agent._skill_registry (fst s)) skill_name = Some skill ->
  fst (Skills.validate_inputs skill inputs) = true ->
  CircuitBreaker._state (Agent._circuit_breaker (fst s)) = CircuitBreaker.STATE_CLOSED ->
  (forall k, exists e, skill_execute env k skill inputs = Raised e) ->
  length (skill_calls (snd (repeat_execute_skill env skill_name inputs n s)))
  = length (skill_calls (snd s)) + n.
Proof.
  intros Hskill Hvalid Hclosed Hfail. revert s Hskill Hclosed.
  induction n as [ | n IH ]; intros s Hskill Hclosed; [ cbn; lia | ].
  cbn [repeat_execute_skill].
  destruct (Hfail (length (skill_calls (snd s)))) as [e He].
  rewrite (execute_skill_invokes skill_name inputs skill s e Hskill Hvalid
             (closed_not_opened _ _ Hclosed) He).
  rewrite IH by assumption. cbn. rewrite length_app. cbn. lia.
Qed.

(** C1, on the code.  The agent only reads the breaker.  Whatever the
    number [n] of consecutive failed executions, the breaker is as it was
    built, it is not open, and the next call to [execute_skill] invokes
    the skill again and fails with the error of the skill, not with
    "Circuit breaker is open". *)
Theorem breaker_never_opens skill_name inputs skill (n : nat) s :
  Skills.get_skill (Agent._skill_registry (fst s)) skill_name = Some skill ->
  fst (Skills.validate_inputs skill inputs) = true ->
  CircuitBreaker._state (Agent._circuit_breaker (fst s)) = CircuitBreaker.STATE_CLOSED ->
  (forall k, exists e, skill_execute env k skill inputs = Raised e) ->
  let s' := repeat_execute_skill env skill_name inputs n s in
  Agent._circuit_breaker (fst s') = Agent._circuit_breaker (fst s)
  /\ CircuitBreaker.opened (Agent._circuit_breaker (fst s')) (clock (snd s')) = false
  /\ length (skill_calls (snd s')) = length (skill_calls (snd s)) + n
  /\ exists e,
       skill_execute env (length (skill_calls (snd s'))) skill inputs = Raised e
       /\ Agent.execute_skill env skill_name inputs s'
          = (Raised e,
             (fst s', W.set_skill_calls (skill_calls (snd s') ++ [(Skills.name skill, inputs)])
                        (snd s'))).
Proof.
  intros Hskill Hvalid Hclosed Hfail s'.
  assert (fst s' = fst s) as Hagent by apply repeat_execute_skill_agent.
  assert (CircuitBreaker.opened (Agent._circuit_breaker (fst s')) (clock (snd s')) = false)
    as Hnot_open by (rewrite Hagent; now apply closed_not_opened).
  split; [ now rewrite Hagent | ].
  split; [ exact Hnot_open | ].
  split; [ now apply (repeat_execute_skill_calls skill_name inputs skill) | ].
  destruct (Hfail (length (skill_calls (snd s')))) as [e He].
  exists e. split; [ exact He | ].
  apply execute_skill_invokes; try assumption.
  now rewrite Hagent.
Qed.

End Breaker.

Lemma breaker_never_opens_witness :
  let inputs := [("request", VStr "hello")] in
  let s' := repeat_execute_skill Demo.env_failing_skill "summarize" inputs 3 Demo.sys_with_skill in
  Agent._circuit_breaker (fst s') = Agent._circuit_breaker (fst Demo.sys_with_skill)
  /\ CircuitBreaker.opened (Agent._circuit_breaker (fst s')) (clock (snd s')) = false
  /\ length (skill_calls (snd s')) = length (skill_calls (snd Demo.sys_with_skill)) + 3
  /\ exists e,
       skill_execute Demo.env_failing_skill (length (skill_calls (snd s'))) Demo.skill inputs
       = Raised e
       /\ Agent.execute_skill Demo.env_failing_skill "summarize" inputs s'
          = (Raised e,
             (fst s', W.set_skill_calls
                        (skill_calls (snd s') ++ [(Skills.name Demo.skill, inputs)]) (snd s'))).
Proof.
  apply (breaker_never_opens Demo.env_failing_skill "summarize" [("request", VStr "hello")]
           Demo.skill 3 Demo.sys_with_skill).
  - vm_compute. reflexivity.
  - vm_compute. reflexivity.
  - reflexivity.
  - intros k. eexists. reflexivity.
Defined.

(** After three failed executions the fourth call still runs the skill. *)
Example fourth_call_invokes_skill :
  let inputs := [("request", VStr "hello")] in
  let s3 := repeat_execute_skill Demo.env_failing_skill "summarize" inputs 3 Demo.sys_with_skill in
  let r4 := Agent.execute_skill Demo.env_failing_skill "summarize" inputs s3 in
  fst r4 = Raised (ServiceError "model unavailable")
  /\ length (skill_calls (snd (snd r4))) = 4.
Proof. vm_compute. split; reflexivity. Qed.

(** ** Storing embeddings in batches *)

Section StoreEmbeddings.
Variables (cfg : Settings) (env : Services).

Lemma embed_items_spec (fuel : nat) (batch : list (string * string * pyval)) :
  provider_answers cfg env ->
  texts_nonempty batch ->
  forall (acc : list vector_item) (w : World),
  exists vecs w',
    Py.for_each batch acc
      (fun item vector_data =>
         let '(id_, text, metadata) := item in
         (e <- Embeddings.generate_embedding cfg env (S fuel) text ;;
          Py.ret (vector_data ++ [(id_, e, metadata)]))%py) w
    = (Returned (acc ++ vecs), w')
    /\ map item_key vecs = map item_key batch
    /\ upsert_calls w' = upsert_calls w.
Proof.
  intros Hprov. induction batch as [ | [ [id_ text] metadata ] batch IH ]; intros Htexts acc w.
  - exists [], w. cbn. rewrite app_nil_r. auto.
  - apply Forall_cons in Htexts as [Htext Htexts]. cbn in Htext.
    destruct (Hprov (length (embedding_calls w)) text) as (e & He & Hdim).
    cbn [Py.for_each]. unfold Py.bind at 1 2.
    rewrite (generate_embedding_returns cfg env text fuel w e Htext He Hdim).
    cbn [Py.ret].
    destruct (IH Htexts (acc ++ [(id_, e, metadata)])
                (W.set_embedding_calls (embedding_calls w ++ [text]) w))
      as (vecs & w' & Hrun & Hkeys & Hcalls).
    exists ((id_, e, metadata) :: vecs), w'.
    rewrite Hrun, <- app_assoc. cbn. rewrite Hkeys. auto.
Qed.

Lemma embed_batch_returns (fuel : nat) (batch : list (string * string * pyval)) (w : World) :
  provider_answers cfg env ->
  texts_nonempty batch ->
  exists vector_data w',
    Embeddings.embed_batch cfg env (S fuel) batch w = (Returned vector_data, w')
    /\ map item_key vector_data = map item_key batch
    /\ upsert_calls w' = upsert_calls w.
Proof.
  intros Hprov Htexts. unfold Embeddings.embed_batch.
  exact (embed_items_spec fuel batch Hprov Htexts [] w).
Qed.

(** One turn of the outer loop: the batch is embedded, sent in one call,
    and the answer of the adapter decides how the loop goes on. *)
Lemma store_batch_eval (fuel : nat) (text_data : list (string * string * pyval))
    (i : nat) (success : bool) (w w1 : World) (vector_data : list vector_item) :
  Embeddings.embed_batch cfg env fuel
    (Embeddings.slice text_data i (i + Embeddings.BATCH_SIZE)) w = (Returned vector_data, w1) ->
  Embeddings.store_batch cfg env fuel text_data i success w
  = (match upsert_vectors env (length (upsert_calls w1)) vector_data with
     | Returned batch_success => Returned (success && batch_success)
     | Raised e => Raised e
     | Pending => Pending
     end,
     W.set_upsert_calls (upsert_calls w1 ++ [vector_data]) w1).
Proof.
  intros Hembed. unfold Embeddings.store_batch, Py.bind. rewrite Hembed.
  unfold W.call_upsert_vectors.
  destruct (upsert_vectors env (length (upsert_calls w1)) vector_data); reflexivity.
Qed.


End StoreEmbeddings.

Lemma demo_items_nonempty (n : nat) : texts_nonempty (Demo.items n).
Proof.
  unfold texts_nonempty, Demo.items. apply List.Forall_forall.
  intros item Hin. apply in_map_iff in Hin as (k & <- & _). discriminate.
Qed.

Lemma demo_provider_answers (env : Services) :
  create_embedding env = create_embedding Demo.env -> provider_answers Demo.cfg env.
Proof. intros H n text. rewrite H. eexists. split; reflexivity. Qed.



(** ** The Pinecone adapter *)

(** [PineconeService.upsert_vectors] itself retries without [stop]: it
    answers [True] or does not answer, it never raises and never answers
    [False]. *)
Lemma pinecone_upsert_vectors_answers (dimension : nat)
    (index_upsert : nat -> list vector_item -> outcome unit)
    (vector_data : list vector_item) (fuel : nat) :
  forall attempt sent,
    match fst (Tenacity.retrying fuel (Tenacity.wait_exponential 1 4 60) (fun _ s => s)
                 Tenacity.stop_never attempt
                 (Pinecone.upsert_vectors_attempt dimension index_upsert vector_data) sent) with
    | Returned b => b = true
    | Raised _ => False
    | Pending => True
    end.
Proof.
  induction fuel as [ | fuel IH ]; intros attempt sent; [ exact I | ].
  cbn [Tenacity.retrying Tenacity.stops].
  unfold Pinecone.upsert_vectors_attempt at 1. unfold Py.try_except.
  match goal with |- context [find ?f vector_data] => destruct (find f vector_data) end.
  - cbn. apply IH.
  - unfold Py.bind, Pinecone.call_index_upsert.
    destruct (index_upsert (length sent) vector_data); cbn; [ reflexivity | apply IH | exact I ].
Qed.

(** * Further properties of the modelled code *)

(** ** More on the retry decorator *)

Section RetryingMore.
Context {St A : Type}.
Variables (wait : nat -> Z) (sleep : Z -> St -> St) (f : Py.M St A).

(** Without a [stop] the decorator never lets an exception out, and a
    value it returns was returned by one of the attempts, in a state that
    satisfies what the attempts and the sleeps preserve. *)
Lemma retrying_stop_never_result (P : St -> Prop) :
  (forall s, P s -> P (snd (f s))) ->
  (forall z s, P s -> P (sleep z s)) ->
  forall fuel attempt s, P s ->
    match fst (Tenacity.retrying fuel wait sleep Tenacity.stop_never attempt f s) with
    | Returned a =>
        exists s0, P s0 /\ f s0 = (Returned a, snd (Tenacity.retrying fuel wait sleep
                                                      Tenacity.stop_never attempt f s))
    | Raised _ => False
    | Pending => True
    end.
Proof.
  intros Hf Hsleep. induction fuel as [ | fuel IH ]; intros attempt s Hs; [ exact I | ].
  cbn [Tenacity.retrying Tenacity.stops].
  pose proof (Hf s Hs) as Hs'.
  destruct (f s) as [ [a | e | ] s1 ] eqn:Hfs; cbn [fst snd] in *.
  - exists s. split; [ exact Hs | exact Hfs ].
  - apply IH. now apply Hsleep.
  - exact I.
Qed.


(** Three failed attempts, for a function that fails in every state of an
    invariant. *)
Lemma retry_three_failures_in (P : St -> Prop) (e : exn) (after : St -> St) (fuel : nat) (s : St) :
  (forall s, P s -> f s = (Raised e, after s) /\ P (after s)) ->
  (forall z s, P s -> P (sleep z s)) ->
  P s ->
  3 <= fuel ->
  Tenacity.retry fuel wait sleep (Tenacity.stop_after_attempt 3) f s
  = (Raised (RetryError e), after (sleep (wait 2) (after (sleep (wait 1) (after s))))).
Proof.
  intros Hf Hsleep Hs Hfuel.
  destruct fuel as [ | [ | [ | fuel ] ] ]; try lia.
  destruct (Hf s Hs) as [E1 P1].
  destruct (Hf _ (Hsleep (wait 1) _ P1)) as [E2 P2].
  destruct (Hf _ (Hsleep (wait 2) _ P2)) as [E3 _].
  unfold Tenacity.retry.
  cbn [Tenacity.retrying]. rewrite E1. cbn [Tenacity.stops Nat.leb].
  cbn [Tenacity.retrying]. rewrite E2. cbn [Tenacity.stops Nat.leb].
  cbn [Tenacity.retrying]. rewrite E3. reflexivity.
Qed.

End RetryingMore.

(** X1. The waits of the decorators of the repository,
    [wait_exponential(multiplier=1, min=4, max=60)], lie between 4 and 60
    seconds after every attempt and never decrease from one attempt to the
    next. *)
Theorem retry_wait_bounds (attempt : nat) :
  (4 <= Tenacity.wait_exponential 1 4 60 attempt <= 60)%Z
  /\ (Tenacity.wait_exponential 1 4 60 attempt
      <= Tenacity.wait_exponential 1 4 60 (S attempt))%Z.
Proof.
  unfold Tenacity.wait_exponential. split; [ lia | ].
  assert (2 ^ (Z.of_nat attempt - 1) <= 2 ^ (Z.of_nat (S attempt) - 1))%Z as Hpow.
  { destruct attempt as [ | n ].
    - cbn. lia.
    - apply Z.pow_le_mono_r; lia. }
  lia.
Qed.

(** ** Skill configurations and the registry *)

Section SkillsMore.
Import PyBuiltins.

Lemma str_in_In (s : string) (l : list string) : Skills.str_in s l = true <-> In s l.
Proof.
  unfold Skills.str_in. rewrite existsb_exists. split.
  - intros (x & Hin & Heq). apply String.eqb_eq in Heq. now subst.
  - intros Hin. exists s. split; [ exact Hin | apply String.eqb_refl ].
Qed.

Lemma dict_in_get (k : string) (d : dict) : dict_in k d = true <-> exists v, dict_get d k = Some v.
Proof.
  unfold dict_in. destruct (dict_get d k); split; eauto; try discriminate.
  intros [v [=]].
Qed.

Lemma is_dict_spec (v : pyval) : is_dict v = true <-> exists d, v = VDict d.
Proof.
  destruct v; cbn; split; try discriminate; eauto; intros [d' [=]].
Qed.

(** X2. [validate_skill_config] accepts a configuration exactly
    when it has a name and a description, its category is the name of a
    member of [SkillCategory], its prompt template is a dictionary, and
    its input and output schemas, when present, are dictionaries; a
    rejection always comes with a message. *)
Theorem validate_skill_config_accepts (c : dict) :
  (Skills.validate_skill_config c = (true, None)
   <-> dict_in "name" c = true
       /\ dict_in "description" c = true
       /\ (exists cat, dict_get c "category" = Some (VStr cat)
                       /\ In cat Skills.SkillCategory_members)
       /\ (exists d, dict_get c "prompt_template" = Some (VDict d))
       /\ (forall v, dict_get c "input_schema" = Some v -> exists d, v = VDict d)
       /\ (forall v, dict_get c "output_schema" = Some v -> exists d, v = VDict d))
  /\ (fst (Skills.validate_skill_config c) = false ->
      exists msg, snd (Skills.validate_skill_config c) = Some msg).
Proof.
  unfold Skills.validate_skill_config, Skills.required_fields. cbn [find].
  unfold dict_in.
  destruct (dict_get c "name") as [vn | ]; cbn [negb];
    [ | split; [ split; [ discriminate | intros (H & _); discriminate ] | eauto ] ].
  destruct (dict_get c "description") as [vd | ]; cbn [negb];
    [ | split; [ split; [ discriminate | intros (_ & H & _); discriminate ] | eauto ] ].
  destruct (dict_get c "category") as [vc | ]; cbn [negb];
    [ | split; [ split; [ discriminate | intros (_ & _ & (cat & [=] & _) & _) ] | eauto ] ].
  destruct (dict_get c "prompt_template") as [vp | ]; cbn [negb];
    [ | split; [ split; [ discriminate | intros (_ & _ & _ & (d & [=]) & _) ] | eauto ] ].
  cbv zeta. cbn [default from_option id].
  destruct (negb (Skills.hashable vc)) eqn:Hhash.
  { split; [ split; [ discriminate | ] | eauto ].
    intros (_ & _ & (cat & [= ->] & _) & _). discriminate. }
  destruct vc as [ | b | z | r | cat | l | dc ];
    try (split; [ split; [ discriminate | intros (_ & _ & (cat' & [=] & _) & _) ] | eauto ]).
  destruct (Skills.str_in cat Skills.SkillCategory_members) eqn:Hcat; cbn [negb].
  2:{ split; [ split; [ discriminate | ] | eauto ].
      intros (_ & _ & (cat' & [= <-] & Hin) & _).
      apply str_in_In in Hin. congruence. }
  apply str_in_In in Hcat.
  destruct (is_dict vp) eqn:Hvp; cbn [negb].
  2:{ split; [ split; [ discriminate | ] | eauto ].
      intros (_ & _ & _ & (d & [= ->]) & _). discriminate. }
  apply is_dict_spec in Hvp as [dp ->].
  destruct (dict_get c "input_schema") as [vi | ]; cbn [andb negb default from_option id].
  - destruct (is_dict vi) eqn:Hvi; cbn [negb].
    2:{ split; [ split; [ discriminate | ] | eauto ].
        intros (_ & _ & _ & _ & Hi & _). destruct (Hi vi eq_refl) as [d ->]. discriminate. }
    apply is_dict_spec in Hvi as [di ->].
    destruct (dict_get c "output_schema") as [vo | ]; cbn [andb negb default from_option id].
    + destruct (is_dict vo) eqn:Hvo; cbn [negb].
      2:{ split; [ split; [ discriminate | ] | eauto ].
          intros (_ & _ & _ & _ & _ & Ho). destruct (Ho vo eq_refl) as [d ->]. discriminate. }
      apply is_dict_spec in Hvo as [do_ ->].
      split; [ split; [ intros _ | reflexivity ] | discriminate ].
      repeat split; eauto; intros v [= <-]; eauto.
    + split; [ split; [ intros _ | reflexivity ] | discriminate ].
      repeat split; eauto; try (intros v [= <-]; eauto); intros v [=].
  - destruct (dict_get c "output_schema") as [vo | ]; cbn [andb negb default from_option id].
    + destruct (is_dict vo) eqn:Hvo; cbn [negb].
      2:{ split; [ split; [ discriminate | ] | eauto ].
          intros (_ & _ & _ & _ & _ & Ho). destruct (Ho vo eq_refl) as [d ->]. discriminate. }
      apply is_dict_spec in Hvo as [do_ ->].
      split; [ split; [ intros _ | reflexivity ] | discriminate ].
      repeat split; eauto; try (intros v [= <-]; eauto); intros v [=].
    + split; [ split; [ intros _ | reflexivity ] | discriminate ].
      repeat split; eauto; intros v [=].
Qed.

End SkillsMore.

(** X3. On a registry whose lock is free, the registration of a
    skill under a new name succeeds; afterwards the name maps to the skill
    and to fresh metrics, every other name maps to what it mapped to
    before, and the lock is free again. *)
Theorem register_skill_then_lookup (registered_at : string) (skill : Skills.Skill)
    (r : Skills.SkillRegistry) :
  Skills._registry_lock r = false ->
  Skills._skills r !! Skills.name skill = None ->
  let r' := snd (Skills.register_skill registered_at skill r) in
  fst (Skills.register_skill registered_at skill r) = Returned (true, None)
  /\ Skills._skills r' !! Skills.name skill = Some skill
  /\ Skills._metrics r' !! Skills.name skill = Some (Skills.initial_metrics registered_at)
  /\ (forall other, other <> Skills.name skill ->
        Skills._skills r' !! other = Skills._skills r !! other
        /\ Skills._metrics r' !! other = Skills._metrics r !! other)
  /\ Skills._registry_lock r' = false.
Proof.
  intros Hfree Hnew r'. subst r'.
  rewrite (register_skill_fresh registered_at skill r Hfree Hnew). cbn [fst snd].
  unfold Skills.insert_skill. cbn.
  split; [ reflexivity | ].
  split; [ apply lookup_insert_eq | ].
  split; [ apply lookup_insert_eq | ].
  split; [ | exact Hfree ].
  intros other Hother. split; apply lookup_insert_ne; congruence.
Qed.

Lemma register_skill_then_lookup_witness :
  let r' := snd (Skills.register_skill "0" Demo.skill Skills.new_SkillRegistry) in
  fst (Skills.register_skill "0" Demo.skill Skills.new_SkillRegistry) = Returned (true, None)
  /\ Skills._skills r' !! Skills.name Demo.skill = Some Demo.skill
  /\ Skills._metrics r' !! Skills.name Demo.skill = Some (Skills.initial_metrics "0")
  /\ (forall other, other <> Skills.name Demo.skill ->
        Skills._skills r' !! other = Skills._skills Skills.new_SkillRegistry !! other
        /\ Skills._metrics r' !! other = Skills._metrics Skills.new_SkillRegistry !! other)
  /\ Skills._registry_lock r' = false.
Proof.
  apply (register_skill_then_lookup "0" Demo.skill Skills.new_SkillRegistry).
  - reflexivity.
  - reflexivity.
Defined.

(** X4. [bulk_register] never registers a skill: whatever the list
    and the registry, the skill map and the metrics map are afterwards as
    they were, and the call returns only for the empty list, with an empty
    result. *)
Theorem bulk_register_registers_nothing (registered_at : string) (skills : list Skills.Skill)
    (r : Skills.SkillRegistry) :
  Skills._skills (snd (Skills.bulk_register registered_at skills r)) = Skills._skills r
  /\ Skills._metrics (snd (Skills.bulk_register registered_at skills r)) = Skills._metrics r
  /\ (forall results,
        fst (Skills.bulk_register registered_at skills r) = Returned results ->
        skills = [] /\ results = ∅).
Proof.
  unfold Skills.bulk_register, Py.try_except, Skills.with_registry_lock.
  destruct (Skills._registry_lock r) eqn:Hlock.
  { cbn. split; [ reflexivity | split; [ reflexivity | discriminate ] ]. }
  destruct skills as [ | skill skills ].
  { cbn. split; [ reflexivity | split; [ reflexivity | ] ].
    intros res [= <-]. auto. }
  assert (find (fun sk => negb (fst (Skills.validate_skill_config (Skills.Skill_dict sk))))
            (skill :: skills) = None) as Hfind.
  { destruct (find _ _) as [bad | ] eqn:Hbad; [ | reflexivity ].
    apply find_some in Hbad as [_ Hneg].
    rewrite validate_skill_config_typed in Hneg. discriminate. }
  rewrite Hfind. cbn [Py.for_each]. unfold Py.finally, Py.bind.
  rewrite register_skill_blocked by reflexivity.
  cbn. split; [ reflexivity | split; [ reflexivity | discriminate ] ].
Qed.

(** X5. [Skill.validate_inputs] accepts the inputs exactly when
    their printed form has at most [max_input_size] characters and every
    key of the input schema is present with a value of the type of the
    schema entry. *)
Theorem validate_inputs_accepts (skill : Skills.Skill) (inputs : PyBuiltins.dict) :
  Skills.validate_inputs skill inputs = (true, None)
  <-> PyBuiltins.len_str (VDict inputs) <= Skills.max_input_size (Skills.security_config skill)
      /\ Forall (fun entry =>
                   exists v, PyBuiltins.dict_get inputs (fst entry) = Some v
                             /\ PyBuiltins.isinstance v (PyBuiltins.type_of (snd entry)) = true)
           (Skills.input_schema skill).
Proof.
  unfold Skills.validate_inputs. cbv zeta.
  destruct (Nat.ltb_spec (Skills.max_input_size (Skills.security_config skill))
              (PyBuiltins.len_str (VDict inputs))) as [Hbig | Hsmall].
  { split; [ discriminate | intros [H _]; lia ]. }
  assert (Skills.check_schema (Skills.input_schema skill) inputs = (true, None)
          <-> Forall (fun entry =>
                        exists v, PyBuiltins.dict_get inputs (fst entry) = Some v
                                  /\ PyBuiltins.isinstance v (PyBuiltins.type_of (snd entry)) = true)
                (Skills.input_schema skill)) as Hschema.
  { induction (Skills.input_schema skill) as [ | [key sch] schema IH ]; cbn [Skills.check_schema].
    - split; [ constructor | reflexivity ].
    - destruct (PyBuiltins.dict_get inputs key) as [v | ] eqn:Hget.
      + destruct (PyBuiltins.isinstance v (PyBuiltins.type_of sch)) eqn:Hty; cbn [negb].
        * rewrite IH. split.
          -- intros H. constructor; [ cbn; eauto | exact H ].
          -- intros H. now apply Forall_cons in H as [_ H].
        * split; [ discriminate | ].
          intros H. apply Forall_cons in H as [(v' & Hv' & Hty') _]. cbn in Hv', Hty'.
          rewrite Hget in Hv'. injection Hv' as <-. congruence.
      + split; [ discriminate | ].
        intros H. apply Forall_cons in H as [(v' & Hv' & _) _]. cbn in Hv'. congruence. }
  rewrite Hschema. split; [ intros H; split; [ exact Hsmall | exact H ] | intros [_ H]; exact H ].
Qed.

(** ** Name and request validators *)

(** X6. The validators of a skill name ([Skill.validate_name] and
    [ExecuteSkillModel.validate_skill_name]) accept exactly the names that
    are not blank, and store the name without the white space around it. *)
Theorem validate_name_accepts (v r : string) :
  (Skills.validate_name v = inr r <-> PyBuiltins.strip v <> EmptyString /\ r = PyBuiltins.strip v)
  /\ Routes.validate_skill_name v = Skills.validate_name v.
Proof.
  split; [ | reflexivity ].
  unfold Skills.validate_name, PyBuiltins.nonempty.
  destruct (String.eqb_spec v EmptyString) as [-> | Hv]; cbn [negb orb].
  { split; [ discriminate | intros [H _]; exfalso; now apply H ]. }
  destruct (String.eqb_spec (PyBuiltins.strip v) EmptyString) as [Hs | Hs]; cbn [negb].
  - split; [ discriminate | intros [H _]; contradiction ].
  - split; [ intros [= <-]; auto | intros [_ ->]; reflexivity ].
Qed.

(** X7. [ProcessRequestModel.validate_request] accepts exactly the
    requests that are not blank and have at most 10000 characters, counted
    before trimming, and passes the trimmed request on. *)
Theorem validate_request_accepts (v r : string) :
  Routes.validate_request v = inr r
  <-> PyBuiltins.strip v <> EmptyString /\ String.length v <= 10 * 1000 /\ r = PyBuiltins.strip v.
Proof.
  unfold Routes.validate_request, PyBuiltins.nonempty, Routes.MAX_REQUEST_LENGTH.
  destruct (String.eqb_spec v EmptyString) as [-> | Hv]; cbn [negb orb].
  { split; [ discriminate | intros [H _]; exfalso; now apply H ]. }
  destruct (String.eqb_spec (PyBuiltins.strip v) EmptyString) as [Hs | Hs]; cbn [negb].
  { split; [ discriminate | intros [H _]; contradiction ]. }
  destruct (Nat.ltb_spec (10 * 1000) (String.length v)) as [Hlong | Hshort].
  - split; [ discriminate | intros (_ & H & _); lia ].
  - split; [ intros [= <-]; auto | intros (_ & _ & ->); reflexivity ].
Qed.

(** ** More on the language model adapter *)

Lemma validators_results (p : string) (t : option Q) (m : option Z) :
  (forall r, LLM.validate_prompt p = inr r -> r = PyBuiltins.strip p)
  /\ (forall r, LLM.validate_temperature t = inr r -> r = t)
  /\ (forall r, LLM.validate_max_tokens m = inr r -> r = m).
Proof.
  unfold LLM.validate_prompt, LLM.validate_temperature, LLM.validate_max_tokens.
  repeat split.
  - destruct (_ || _); [ discriminate | now intros r [= <-] ].
  - destruct t as [q | ]; [ destruct (negb _); [ discriminate | ] | ]; now intros r [= <-].
  - destruct m as [n | ]; [ destruct (n <? 1)%Z; [ discriminate | ] | ]; now intros r [= <-].
Qed.

Lemma not_rejected_accepted {A} (r : string + A) : ~ rejected r <-> exists a, r = inr a.
Proof.
  unfold rejected. destruct r as [msg | a]; split.
  - intros H. exfalso. apply H. eauto.
  - intros [a [=]].
  - eauto.
  - intros _ [msg [=]].
Qed.

Lemma new_LLMRequest_fields (p : string) (t : option Q) (m : option Z) (rid : option string)
    (request : LLM.LLMRequest) :
  LLM.new_LLMRequest p t m rid = inr request ->
  LLM.prompt request = PyBuiltins.strip p
  /\ LLM.temperature request = t
  /\ LLM.max_tokens request = m
  /\ LLM.request_id request = rid.
Proof.
  destruct (validators_results p t m) as (Rp & Rt & Rm).
  unfold LLM.new_LLMRequest.
  destruct (LLM.validate_prompt p) as [ | p' ] eqn:Ep,
           (LLM.validate_temperature t) as [ | t' ] eqn:Et,
           (LLM.validate_max_tokens m) as [ | m' ] eqn:Em; try discriminate.
  intros [= <-]. cbn. rewrite (Rp p' eq_refl), (Rt t' eq_refl), (Rm m' eq_refl). auto.
Qed.

(** X8. [LLMRequest] accepts its arguments exactly when the
    prompt is not blank, the temperature is absent or within [0, 1], and
    the maximum of tokens is absent or at least 1; the request it builds
    holds the trimmed prompt and the other arguments as given. *)
Theorem LLMRequest_accepts (p : string) (t : option Q) (m : option Z) (rid : option string) :
  ((exists request, LLM.new_LLMRequest p t m rid = inr request)
   <-> PyBuiltins.strip p <> EmptyString
       /\ (forall q, t = Some q -> (0 <= q /\ q <= 1)%Q)
       /\ (forall n, m = Some n -> (1 <= n)%Z))
  /\ (forall request, LLM.new_LLMRequest p t m rid = inr request ->
        LLM.prompt request = PyBuiltins.strip p
        /\ LLM.temperature request = t
        /\ LLM.max_tokens request = m
        /\ LLM.request_id request = rid).
Proof.
  destruct (validators_results p t m) as (Rp & Rt & Rm).
  assert ((exists request, LLM.new_LLMRequest p t m rid = inr request)
          <-> ~ rejected (LLM.validate_prompt p)
              /\ ~ rejected (LLM.validate_temperature t)
              /\ ~ rejected (LLM.validate_max_tokens m)) as Hiff.
  { rewrite !not_rejected_accepted. unfold LLM.new_LLMRequest.
    destruct (LLM.validate_prompt p), (LLM.validate_temperature t), (LLM.validate_max_tokens m);
      (split;
       [ first [ solve [ intros [request [=]] ] | solve [ eauto 10 ] ]
       | first [ solve [ intros ([a [=]] & _) ]
               | solve [ intros (_ & [b [=]] & _) ]
               | solve [ intros (_ & _ & [c [=]]) ]
               | solve [ eauto ] ] ]). }
  split.
  - rewrite Hiff, validate_prompt_rejects, validate_temperature_rejects,
      validate_max_tokens_rejects.
    split.
    + intros (Hp & Ht & Hm). split; [ exact Hp | split ].
      * intros q ->. destruct (Qlt_le_dec q 0) as [Hlt | H0].
        -- exfalso. apply Ht. exists q. split; [ reflexivity | ].
           intros [Hle _]. exact (Qlt_not_le _ _ Hlt Hle).
        -- destruct (Qlt_le_dec 1 q) as [Hgt | H1]; [ | split; assumption ].
           exfalso. apply Ht. exists q. split; [ reflexivity | ].
           intros [_ Hle]. exact (Qlt_not_le _ _ Hgt Hle).
      * intros n ->. destruct (Z_lt_le_dec n 1) as [Hlt | Hle]; [ | exact Hle ].
        exfalso. apply Hm. eauto.
    + intros (Hp & Ht & Hm). split; [ exact Hp | split ].
      * intros (q & -> & Hn). apply Hn. now apply Ht.
      * intros (n & -> & Hn). specialize (Hm n eq_refl). lia.
  - intros request. apply new_LLMRequest_fields.
Qed.

Section LanguageModelMore.
Variables (cfg : Settings) (env : Services).

Lemma set_rate_limiter_restore (n : nat) (w : World) :
  rate_limiter w = S n ->
  forall calls,
    W.set_rate_limiter (S n) (W.set_completion_calls calls (W.set_rate_limiter n w))
    = W.set_completion_calls calls w.
Proof. intros H calls. destruct w. cbn in *. now subst. Qed.

(** One attempt with arguments that pass the validation and a free permit:
    one call of the provider, and the permit is given back. *)
Lemma generate_text_attempt_call p t m rid request (w : World) :
  LLM.new_LLMRequest p t m rid = inr request ->
  rate_limiter w <> 0 ->
  let args := (LLM.prompt request, LLM.temperature request, LLM.max_tokens request, model cfg) in
  let w' := W.set_completion_calls (completion_calls w ++ [args]) w in
  LLM.generate_text_attempt cfg env p t m rid w
  = match create_completion env (length (completion_calls w)) (LLM.prompt request)
            (LLM.temperature request) (LLM.max_tokens request) (model cfg) with
    | Returned completion => (Returned completion, w')
    | Raised e =>
        if is_ValueError e
        then (Raised e, W.set_counters (counters w ++ [validation_error_label]) w')
        else (Raised (RuntimeError ("Text generation failed: " +:+ str e)),
              W.set_counters (counters w ++ [service_error_label]) w')
    | Pending =>
        (Pending, W.set_completion_calls (completion_calls w ++ [args])
                    (W.set_rate_limiter (pred (rate_limiter w)) w))
    end.
Proof.
  intros Hreq Hpermit args w'. subst args w'.
  unfold LLM.generate_text_attempt, Py.try_except. rewrite Hreq.
  unfold LLM.with_rate_limiter. destruct (rate_limiter w) as [ | n ] eqn:Hn; [ congruence | ].
  unfold Py.finally, W.call_create_completion. cbn [completion_calls W.set_rate_limiter].
  destruct (create_completion env _ _ _ _ _) as [completion | e | ].
  - now rewrite (set_rate_limiter_restore n w Hn).
  - rewrite (set_rate_limiter_restore n w Hn).
    destruct (is_ValueError e); reflexivity.
  - reflexivity.
Qed.

(** X9. [generate_text] with arguments that pass the validation,
    a free permit and a provider that answers: the provider is called
    once, with the trimmed prompt and the configured model, its answer is
    returned, and nothing else changes (the permit is given back). *)
Theorem generate_text_calls_provider_once p t m rid request completion (fuel : nat) (w : World) :
  LLM.new_LLMRequest p t m rid = inr request ->
  rate_limiter w <> 0 ->
  create_completion env (length (completion_calls w)) (LLM.prompt request)
    (LLM.temperature request) (LLM.max_tokens request) (model cfg) = Returned completion ->
  LLM.generate_text cfg env (S fuel) p t m rid w
  = (Returned completion,
     W.set_completion_calls
       (completion_calls w ++ [(PyBuiltins.strip p, t, m, model cfg)]) w).
Proof.
  intros Hreq Hpermit Hcall.
  destruct (new_LLMRequest_fields p t m rid request Hreq) as (Hp & Ht & Hm & _).
  unfold LLM.generate_text, LLM.retry3.
  apply retry_first_attempt.
  rewrite (generate_text_attempt_call p t m rid request w Hreq Hpermit), Hcall.
  now rewrite Hp, Ht, Hm.
Qed.

(** X10. [generate_text] with valid arguments and a provider that
    fails on every call with an error other than a [ValueError]: the
    provider is called three times with the same arguments, the caller
    receives a [RetryError] around "Text generation failed: ...", the
    service-error counter grows by three, and the permits are as before. *)
Theorem generate_text_provider_failure p t m rid request (e : exn) (fuel : nat) (w : World) :
  LLM.new_LLMRequest p t m rid = inr request ->
  rate_limiter w <> 0 ->
  is_ValueError e = false ->
  (forall n, create_completion env n (LLM.prompt request) (LLM.temperature request)
               (LLM.max_tokens request) (model cfg) = Raised e) ->
  3 <= fuel ->
  let args := (LLM.prompt request, LLM.temperature request, LLM.max_tokens request, model cfg) in
  let r := LLM.generate_text cfg env fuel p t m rid w in
  fst r = Raised (RetryError (RuntimeError ("Text generation failed: " +:+ str e)))
  /\ completion_calls (snd r) = completion_calls w ++ [args; args; args]
  /\ rate_limiter (snd r) = rate_limiter w
  /\ W.counter service_error_label (snd r) = 3 + W.counter service_error_label w.
Proof.
  intros Hreq Hpermit Hnv Hfail Hfuel args r. subst r.
  unfold LLM.generate_text, LLM.retry3.
  rewrite (retry_three_failures_in _ _ _ (fun w' => rate_limiter w' <> 0)
             (RuntimeError ("Text generation failed: " +:+ str e))
             (fun w' => W.set_counters (counters w' ++ [service_error_label])
                          (W.set_completion_calls (completion_calls w' ++ [args]) w'))
             fuel w); try assumption.
  - cbn [fst snd]. split; [ reflexivity | ].
    split; [ cbn; now rewrite <- !app_assoc | ].
    split; [ reflexivity | ].
    unfold W.counter. cbn. rewrite !filter_app, !length_app. cbn.
    rewrite decide_True by reflexivity. cbn. lia.
  - intros w' Hw'. split; [ | exact Hw' ].
    rewrite (generate_text_attempt_call p t m rid request w' Hreq Hw'), Hfail, Hnv.
    reflexivity.
  - intros z w' Hw'. exact Hw'.
Qed.


(** X12. [LanguageModel.get_embedding] rejects a blank text
    without calling the provider; for any other text it calls the provider
    once and returns the vector as it is, whatever its dimension, or wraps
    the error of the provider in a [RuntimeError]. *)
Theorem get_embedding_behaviour (text : string) (w : World) :
  (PyBuiltins.strip text = EmptyString ->
   LLM.get_embedding env text w
   = (Raised (RuntimeError "Embedding generation failed: Input text cannot be empty"),
      W.set_counters (counters w ++ ["llm_request_failures_total/get_embedding/service_error"]) w))
  /\ (PyBuiltins.strip text <> EmptyString ->
      let w' := W.set_embedding_calls (embedding_calls w ++ [text]) w in
      LLM.get_embedding env text w
      = match create_embedding env (length (embedding_calls w)) text with
        | Returned e => (Returned e, w')
        | Raised e =>
            (Raised (RuntimeError ("Embedding generation failed: " +:+ str e)),
             W.set_counters
               (counters w ++ ["llm_request_failures_total/get_embedding/service_error"]) w')
        | Pending => (Pending, w')
        end).
Proof.
  unfold LLM.get_embedding, Py.try_except, PyBuiltins.nonempty. split.
  - intros ->. reflexivity.
  - intros Hs. destruct (String.eqb_spec (PyBuiltins.strip text) EmptyString); [ contradiction | ].
    cbn [negb]. unfold W.call_create_embedding.
    destruct (create_embedding env _ text); reflexivity.
Qed.

End LanguageModelMore.

(** ** More on the embedding service *)

Section EmbeddingsMore.
Variables (cfg : Settings) (env : Services).

Lemma generate_embedding_attempt_returned (text : string) (w : World) (e : embedding) :
  fst (Embeddings.generate_embedding_attempt cfg env text w) = Returned e ->
  length e = embedding_dimension cfg
  /\ text <> EmptyString
  /\ create_embedding env (length (embedding_calls w)) text = Returned e.
Proof.
  unfold Embeddings.generate_embedding_attempt, Py.try_except, PyBuiltins.nonempty.
  destruct (String.eqb_spec text EmptyString) as [ | Hne ]; cbn [negb]; [ discriminate | ].
  unfold Py.bind, W.call_create_embedding.
  destruct (create_embedding env _ text) as [e' | err | ]; try discriminate.
  destruct (Nat.eqb_spec (length e') (embedding_dimension cfg)) as [Hdim | ]; cbn [negb];
    [ | discriminate ].
  intros [= <-]. auto.
Qed.

(** X13. [generate_embedding] never raises, and a vector it
    returns has the configured dimension and is the answer of the provider
    to one of its calls for this (non-empty) text. *)
Theorem generate_embedding_dimension (fuel : nat) (text : string) (w : World) :
  match fst (Embeddings.generate_embedding cfg env fuel text w) with
  | Returned e =>
      length e = embedding_dimension cfg
      /\ text <> EmptyString
      /\ exists n, create_embedding env n text = Returned e
  | Raised _ => False
  | Pending => True
  end.
Proof.
  unfold Embeddings.generate_embedding, Embeddings.retry_forever, Tenacity.retry.
  pose proof (retrying_stop_never_result
                (Tenacity.wait_exponential Embeddings.RETRY_MULTIPLIER Embeddings.MIN_RETRY_WAIT
                   Embeddings.MAX_RETRY_WAIT)
                W.sleep (Embeddings.generate_embedding_attempt cfg env text) (fun _ => True)
                (fun _ _ => I) (fun _ _ _ => I) fuel 1 w I) as H.
  destruct (fst (Tenacity.retrying _ _ _ _ _ _ _)) as [e | err | ]; [ | exact H | exact I ].
  destruct H as (w0 & _ & Hattempt).
  destruct (generate_embedding_attempt_returned text w0 e) as (Hdim & Hne & Hcall).
  - now rewrite Hattempt.
  - eauto.
Qed.

(** X14. A provider that fails [k] times and then answers with a
    vector of the configured dimension is asked [k + 1] times, and its
    answer is returned: the failures are not seen by the caller. *)
Theorem generate_embedding_retries_until_answer (k fuel : nat) (text : string) (w : World)
    (e : embedding) :
  text <> EmptyString ->
  (forall n, n < k -> exists err,
       create_embedding env (length (embedding_calls w) + n) text = Raised err) ->
  create_embedding env (length (embedding_calls w) + k) text = Returned e ->
  length e = embedding_dimension cfg ->
  k < fuel ->
  fst (Embeddings.generate_embedding cfg env fuel text w) = Returned e
  /\ embedding_calls (snd (Embeddings.generate_embedding cfg env fuel text w))
     = embedding_calls w ++ repeat text (S k).
Proof.
  intros Hne. unfold Embeddings.generate_embedding, Embeddings.retry_forever, Tenacity.retry.
  generalize 1 as attempt. revert fuel w.
  induction k as [ | k IH ]; intros fuel w attempt Hfail Hanswer Hdim Hfuel.
  - destruct fuel as [ | fuel ]; [ lia | ].
    rewrite Nat.add_0_r in Hanswer.
    pose proof (generate_embedding_returns cfg env text 0 w e Hne Hanswer Hdim) as Hret.
    unfold Embeddings.generate_embedding, Embeddings.retry_forever, Tenacity.retry in Hret.
    cbn [Tenacity.retrying] in Hret |- *.
    destruct (Embeddings.generate_embedding_attempt cfg env text w) as [ [a | err | ] w1 ];
      cbn [Tenacity.stops] in Hret; try discriminate.
    injection Hret as -> ->. cbn. auto.
  - destruct fuel as [ | fuel ]; [ lia | ].
    destruct (Hfail 0 ltac:(lia)) as [err Herr]. rewrite Nat.add_0_r in Herr.
    cbn [Tenacity.retrying Tenacity.stops].
    assert (Embeddings.generate_embedding_attempt cfg env text w
            = (Raised (RuntimeError ("Failed to generate embedding: " +:+ str err)),
               W.set_embedding_calls (embedding_calls w ++ [text]) w)) as Hattempt.
    { unfold Embeddings.generate_embedding_attempt, Py.try_except, PyBuiltins.nonempty.
      destruct (String.eqb_spec text EmptyString); [ contradiction | ].
      cbn [negb]. unfold Py.bind, W.call_create_embedding. now rewrite Herr. }
    rewrite Hattempt.
    match goal with
    | |- context [Tenacity.retrying fuel ?wt ?sl _ ?a ?f ?w1] =>
        destruct (IH fuel w1 a) as [H1 H2]
    end.
    + intros n Hn. cbn. rewrite length_app. cbn.
      destruct (Hfail (S n) ltac:(lia)) as [err' Herr'].
      exists err'. rewrite <- Herr'. f_equal. lia.
    + cbn. rewrite length_app. cbn. rewrite <- Hanswer. f_equal. lia.
    + exact Hdim.
    + lia.
    + split; [ exact H1 | ].
      rewrite H2. cbn. now rewrite <- app_assoc.
Qed.

(** X15. [search_similar] with an empty query text, or with
    [top_k] below 1, fails at once with a [RuntimeError] around the message
    of the check: nothing is embedded, nothing is asked of the vector
    store, and the world is as before. *)
Theorem search_similar_invalid (fuel : nat) (query_text : string) (top_k : Z)
    (filter_params : option pyval) (w : World) :
  (query_text = EmptyString ->
   Embeddings.search_similar cfg env fuel query_text top_k filter_params w
   = (Raised (RuntimeError "Failed to execute similarity search: Query text cannot be empty"), w))
  /\ (query_text <> EmptyString -> (top_k < 1)%Z ->
      Embeddings.search_similar cfg env fuel query_text top_k filter_params w
      = (Raised (RuntimeError "Failed to execute similarity search: top_k must be positive"), w)).
Proof.
  unfold Embeddings.search_similar, Py.try_except, PyBuiltins.nonempty. split.
  - intros ->. reflexivity.
  - intros Hne Hk. destruct (String.eqb_spec query_text EmptyString); [ contradiction | ].
    cbn [negb]. destruct (Z.ltb_spec top_k 1); [ reflexivity | lia ].
Qed.

(** X16. [search_similar] with a valid query and an embedding
    provider that answers: the vector store is asked once, with the
    embedding of the text, [top_k] and the filter; its matches are
    returned as they are, and its error comes back wrapped in a
    [RuntimeError]. *)
Theorem search_similar_asks_store_once (fuel : nat) (query_text : string) (top_k : Z)
    (filter_params : option pyval) (w : World) (e : embedding) :
  query_text <> EmptyString ->
  (1 <= top_k)%Z ->
  create_embedding env (length (embedding_calls w)) query_text = Returned e ->
  length e = embedding_dimension cfg ->
  Embeddings.search_similar cfg env (S fuel) query_text top_k filter_params w
  = (match pinecone_query env (length (query_calls w)) e top_k filter_params with
     | Returned matches => Returned matches
     | Raised err =>
         Raised (RuntimeError ("Failed to execute similarity search: " +:+ str err))
     | Pending => Pending
     end,
     W.set_query_calls (query_calls w ++ [(e, top_k, filter_params)])
       (W.set_embedding_calls (embedding_calls w ++ [query_text]) w)).
Proof.
  intros Hne Hk He Hdim.
  unfold Embeddings.search_similar, Py.try_except, Py.bind, PyBuiltins.nonempty.
  destruct (String.eqb_spec query_text EmptyString); [ contradiction | ].
  cbn [negb]. destruct (Z.ltb_spec top_k 1); [ lia | ].
  rewrite (generate_embedding_returns cfg env query_text fuel w e Hne He Hdim).
  unfold W.call_query. cbn [query_calls W.set_embedding_calls].
  destruct (pinecone_query env _ e top_k filter_params); reflexivity.
Qed.

End EmbeddingsMore.

Lemma generate_embedding_retries_until_answer_witness :
  let env := {| create_embedding := fun n _ => if n <? 2 then Raised (ServiceError "busy")
                                               else Returned [1%Q; 0%Q];
                create_completion := create_completion Demo.env;
                upsert_vectors := upsert_vectors Demo.env;
                pinecone_query := pinecone_query Demo.env;
                skill_execute := skill_execute Demo.env;
                isoformat := isoformat Demo.env;
                fromisoformat := fromisoformat Demo.env |} in
  fst (Embeddings.generate_embedding Demo.cfg env 3 "hello" Demo.world) = Returned [1%Q; 0%Q]
  /\ embedding_calls (snd (Embeddings.generate_embedding Demo.cfg env 3 "hello" Demo.world))
     = embedding_calls Demo.world ++ repeat "hello" 3.
Proof.
  cbv zeta.
  apply (generate_embedding_retries_until_answer Demo.cfg _ 2 3 "hello" Demo.world [1%Q; 0%Q]).
  - discriminate.
  - intros n Hn. exists (ServiceError "busy").
    destruct n as [ | [ | n ] ]; [ reflexivity | reflexivity | lia ].
  - reflexivity.
  - reflexivity.
  - lia.
Defined.

Lemma search_similar_invalid_witness :
  Embeddings.search_similar Demo.cfg Demo.env 1 EmptyString 5 None Demo.world
  = (Raised (RuntimeError "Failed to execute similarity search: Query text cannot be empty"),
     Demo.world)
  /\ Embeddings.search_similar Demo.cfg Demo.env 1 "hello" 0 None Demo.world
     = (Raised (RuntimeError "Failed to execute similarity search: top_k must be positive"),
        Demo.world).
Proof.
  split.
  - apply (proj1 (search_similar_invalid Demo.cfg Demo.env 1 EmptyString 5 None Demo.world)).
    reflexivity.
  - apply (proj2 (search_similar_invalid Demo.cfg Demo.env 1 "hello" 0 None Demo.world)).
    + discriminate.
    + lia.
Defined.

Lemma search_similar_asks_store_once_witness :
  Embeddings.search_similar Demo.cfg Demo.env 1 "hello" 5 None Demo.world
  = (match pinecone_query Demo.env (length (query_calls Demo.world)) [1%Q; 0%Q] 5 None with
     | Returned matches => Returned matches
     | Raised err =>
         Raised (RuntimeError ("Failed to execute similarity search: " +:+ str err))
     | Pending => Pending
     end,
     W.set_query_calls (query_calls Demo.world ++ [([1%Q; 0%Q], 5%Z, None)])
       (W.set_embedding_calls (embedding_calls Demo.world ++ ["hello"]) Demo.world)).
Proof.
  apply (search_similar_asks_store_once Demo.cfg Demo.env 0 "hello" 5 None Demo.world [1%Q; 0%Q]).
  - discriminate.
  - lia.
  - reflexivity.
  - reflexivity.
Defined.

(** ** Batches of [store_embeddings], for any number of items *)

Lemma chunks_concat {A} (l : list A) (s m : nat) :
  concat (map (fun i => Embeddings.slice l i (i + s)) (map (fun k => k * s) (seq 0 m)))
  = take (m * s) l.
Proof.
  induction m as [ | m IH ].
  - reflexivity.
  - rewrite seq_S, !map_app, concat_app, IH. cbn [map concat Nat.add].
    rewrite app_nil_r. unfold Embeddings.slice.
    replace (m * s + s - m * s) with s by lia.
    rewrite take_take_drop. f_equal. lia.
Qed.

Lemma range_step_covers (n s : nat) : 0 < s -> n <= (n + s - 1) / s * s.
Proof.
  intros Hs.
  pose proof (Nat.div_mod (n + s - 1) s ltac:(lia)) as Hdiv.
  pose proof (Nat.mod_upper_bound (n + s - 1) s ltac:(lia)) as Hmod.
  nia.
Qed.

Lemma range_step_inside (n s k : nat) : 0 < s -> k < (n + s - 1) / s -> k * s < n.
Proof.
  intros Hs Hk.
  pose proof (Nat.div_mod (n + s - 1) s ltac:(lia)) as Hdiv.
  pose proof (Nat.mod_upper_bound (n + s - 1) s ltac:(lia)) as Hmod.
  nia.
Qed.

Lemma slices_concat {A} (l : list A) (s : nat) :
  0 < s ->
  concat (map (fun i => Embeddings.slice l i (i + s)) (Embeddings.range_step (length l) s)) = l.
Proof.
  intros Hs. unfold Embeddings.range_step. rewrite chunks_concat.
  apply take_ge, range_step_covers, Hs.
Qed.

Lemma slices_sizes {A} (l : list A) (s : nat) :
  0 < s ->
  Forall (fun i => 1 <= length (Embeddings.slice l i (i + s)) <= s)
    (Embeddings.range_step (length l) s).
Proof.
  intros Hs. apply List.Forall_forall. intros i Hi.
  unfold Embeddings.range_step in Hi. apply in_map_iff in Hi as (k & <- & Hk).
  apply in_seq in Hk. unfold Embeddings.slice.
  rewrite length_take, length_drop.
  pose proof (range_step_inside (length l) s k Hs ltac:(lia)). lia.
Qed.

Section StoreEmbeddingsMore.
Variables (cfg : Settings) (env : Services).

Lemma store_loop (fuel : nat) (text_data : list (string * string * pyval)) :
  provider_answers cfg env ->
  texts_nonempty text_data ->
  adapter_answers env ->
  forall (idxs : list nat) (success : bool) (w : World),
  exists sent w',
    Py.for_each idxs success (Embeddings.store_batch cfg env (S fuel) text_data) w
    = (Returned (success
                 && forallb answered_true (upsert_answers env (length (upsert_calls w)) sent)),
       w')
    /\ upsert_calls w' = upsert_calls w ++ sent
    /\ map (map item_key) sent
       = map (fun i => map item_key (Embeddings.slice text_data i (i + Embeddings.BATCH_SIZE)))
           idxs.
Proof.
  intros Hprov Htexts Hadapter.
  assert (forall i, texts_nonempty (Embeddings.slice text_data i (i + Embeddings.BATCH_SIZE)))
    as Hslice by (intros i; apply Forall_take, Forall_drop, Htexts).
  induction idxs as [ | i idxs IH ]; intros success w.
  - exists [], w. cbn. rewrite andb_true_r, app_nil_r. auto.
  - destruct (embed_batch_returns cfg env fuel _ w Hprov (Hslice i)) as (vd & w1 & E & K & C).
    destruct (Hadapter (length (upsert_calls w1)) vd) as [b Hb].
    cbn [Py.for_each]. unfold Py.bind at 1.
    rewrite (store_batch_eval cfg env _ _ _ _ _ _ _ E), Hb.
    destruct (IH (success && b) (W.set_upsert_calls (upsert_calls w1 ++ [vd]) w1))
      as (sent & w' & Hrun & Hcalls & Hkeys).
    exists (vd :: sent), w'. rewrite Hrun.
    cbn [W.set_upsert_calls upsert_calls] in Hcalls |- *.
    rewrite C in Hcalls, Hb |- *. rewrite length_app. cbn [length upsert_answers forallb map].
    rewrite Hb, Nat.add_1_r. cbn [answered_true].
    rewrite andb_assoc, Hcalls, <- app_assoc, K, Hkeys. auto.
Qed.

(** X17. [store_embeddings] of any non-empty list of items (texts
    non-empty, provider and adapter answering): every item reaches the
    adapter exactly once and in the order given, in ceil(n / 100)
    consecutive calls of between 1 and 100 items each, and the result is
    the conjunction of the adapter's answers. *)
Theorem store_embeddings_batches (fuel : nat) (text_data : list (string * string * pyval))
    (w : World) :
  text_data <> [] ->
  texts_nonempty text_data ->
  provider_answers cfg env ->
  adapter_answers env ->
  exists sent w',
    Embeddings.store_embeddings cfg env (S fuel) text_data w
    = (Returned (forallb answered_true (upsert_answers env (length (upsert_calls w)) sent)), w')
    /\ upsert_calls w' = upsert_calls w ++ sent
    /\ length sent = (length text_data + 99) / 100
    /\ concat (map (map item_key) sent) = map item_key text_data
    /\ Forall (fun vector_data => 1 <= length vector_data <= 100) sent.
Proof.
  intros Hne Htexts Hprov Hadapter.
  destruct (store_loop fuel text_data Hprov Htexts Hadapter
              (Embeddings.range_step (length text_data) Embeddings.BATCH_SIZE) true w)
    as (sent & w' & Hrun & Hcalls & Hkeys).
  exists sent, w'.
  assert (0 < Embeddings.BATCH_SIZE) as Hs by (unfold Embeddings.BATCH_SIZE; lia).
  split; [ | split; [ exact Hcalls | split; [ | split ] ] ].
  - unfold Embeddings.store_embeddings, Py.try_except.
    destruct text_data as [ | item rest ]; [ contradiction | ].
    rewrite Hrun. reflexivity.
  - pose proof (f_equal length Hkeys) as Hlen. rewrite !length_map in Hlen.
    etransitivity; [ exact Hlen | ].
    unfold Embeddings.range_step, Embeddings.BATCH_SIZE. rewrite length_map, length_seq.
    f_equal. lia.
  - rewrite Hkeys.
    transitivity
      (map (@item_key string)
         (concat (map (fun i => Embeddings.slice text_data i (i + Embeddings.BATCH_SIZE))
                    (Embeddings.range_step (length text_data) Embeddings.BATCH_SIZE)))).
    + rewrite concat_map, map_map. reflexivity.
    + now rewrite (slices_concat text_data Embeddings.BATCH_SIZE Hs).
  - pose proof (slices_sizes text_data Embeddings.BATCH_SIZE Hs) as Hsizes.
    apply List.Forall_forall. intros vd Hvd.
    apply (in_map (map item_key)) in Hvd. rewrite Hkeys in Hvd.
    apply in_map_iff in Hvd as (i & Hi & Hin).
    rewrite List.Forall_forall in Hsizes. specialize (Hsizes i Hin).
    pose proof (f_equal length Hi) as Hlen. rewrite !length_map in Hlen.
    unfold Embeddings.BATCH_SIZE in Hsizes, Hlen. rewrite Hlen in Hsizes. exact Hsizes.
Qed.

End StoreEmbeddingsMore.

Lemma store_embeddings_batches_witness :
  exists sent w',
    Embeddings.store_embeddings Demo.cfg Demo.env_second_batch_false 1 (Demo.items 250) Demo.world
    = (Returned (forallb answered_true
                   (upsert_answers Demo.env_second_batch_false
                      (length (upsert_calls Demo.world)) sent)), w')
    /\ upsert_calls w' = upsert_calls Demo.world ++ sent
    /\ length sent = (length (Demo.items 250) + 99) / 100
    /\ concat (map (map item_key) sent) = map item_key (Demo.items 250)
    /\ Forall (fun vector_data => 1 <= length vector_data <= 100) sent.
Proof.
  apply (store_embeddings_batches Demo.cfg Demo.env_second_batch_false 0 (Demo.items 250)
           Demo.world).
  - discriminate.
  - apply demo_items_nonempty.
  - apply demo_provider_answers. reflexivity.
  - intros n vector_data. eexists. reflexivity.
Defined.

(** ** The vector-store client *)

Section PineconeMore.
Variable dimension : nat.

(** X18. [PineconeService.upsert_vectors] never raises and never
    answers [False]: when it returns, every vector has the dimension of the
    index and the last call of the index, with exactly these vectors, was
    accepted. *)
Theorem pinecone_upsert_contract (index_upsert : nat -> list vector_item -> outcome unit)
    (fuel : nat) (vector_data : list vector_item) (sent : list (list vector_item)) :
  match Pinecone.upsert_vectors dimension index_upsert fuel vector_data sent with
  | (Returned b, sent') =>
      b = true
      /\ Forall (fun item => length (snd (fst item)) = dimension) vector_data
      /\ exists sent0, sent' = sent0 ++ [vector_data]
                       /\ index_upsert (length sent0) vector_data = Returned tt
  | (Raised _, _) => False
  | (Pending, _) => True
  end.
Proof.
  unfold Pinecone.upsert_vectors, Tenacity.retry.
  pose proof (retrying_stop_never_result (Tenacity.wait_exponential 1 4 60) (fun _ s => s)
                (Pinecone.upsert_vectors_attempt dimension index_upsert vector_data)
                (fun _ => True) (fun _ _ => I) (fun _ _ _ => I) fuel 1 sent I) as H.
  destruct (Tenacity.retrying _ _ _ _ _ _ _) as [ [b | e | ] sent' ]; cbn [fst snd] in H;
    [ | exact H | exact I ].
  destruct H as (s0 & _ & Hattempt).
  unfold Pinecone.upsert_vectors_attempt, Py.try_except in Hattempt.
  match type of Hattempt with
  | context [find ?f vector_data] => destruct (find f vector_data) eqn:Hfind
  end; [ discriminate | ].
  unfold Py.bind, Pinecone.call_index_upsert in Hattempt.
  destruct (index_upsert (length s0) vector_data) as [ [] | e | ] eqn:Hindex; try discriminate.
  injection Hattempt as <- <-.
  split; [ reflexivity | split; [ | eauto ] ].
  apply List.Forall_forall. intros item Hin.
  pose proof (find_none _ _ Hfind item Hin) as Hitem. cbn beta in Hitem.
  apply negb_false_iff, Nat.eqb_eq in Hitem. exact Hitem.
Qed.

(** X19. [PineconeService.query] never raises: when it returns, the
    query vector has the dimension of the index and the matches are those
    of the index's answer to the last query, with their ids, scores and
    metadata. *)
Theorem pinecone_query_contract
    (index_query : nat -> embedding -> Z -> option pyval -> outcome (list Match))
    (fuel : nat) (query_vector : embedding) (top_k : Z) (filter_params : option pyval)
    (asked : list (embedding * Z * option pyval)) :
  match Pinecone.query dimension index_query fuel query_vector top_k filter_params asked with
  | (Returned matches, asked') =>
      length query_vector = dimension
      /\ exists asked0, asked' = asked0 ++ [(query_vector, top_k, filter_params)]
                        /\ index_query (length asked0) query_vector top_k filter_params
                           = Returned matches
  | (Raised _, _) => False
  | (Pending, _) => True
  end.
Proof.
  unfold Pinecone.query, Tenacity.retry.
  pose proof (retrying_stop_never_result (Tenacity.wait_exponential 1 4 60) (fun _ s => s)
                (Pinecone.query_attempt dimension index_query query_vector top_k filter_params)
                (fun _ => True) (fun _ _ => I) (fun _ _ _ => I) fuel 1 asked I) as H.
  destruct (Tenacity.retrying _ _ _ _ _ _ _) as [ [matches | e | ] asked' ]; cbn [fst snd] in H;
    [ | exact H | exact I ].
  destruct H as (s0 & _ & Hattempt).
  unfold Pinecone.query_attempt, Py.try_except in Hattempt.
  destruct (Nat.eqb_spec (length query_vector) dimension) as [Hdim | ]; cbn [negb] in Hattempt;
    [ | discriminate ].
  unfold Py.bind, Pinecone.call_index_query in Hattempt.
  destruct (index_query (length s0) query_vector top_k filter_params) as [results | e | ]
    eqn:Hindex; try discriminate.
  injection Hattempt as <- <-.
  split; [ exact Hdim | ]. exists s0. split; [ reflexivity | ].
  rewrite Hindex. f_equal. clear Hindex.
  induction results as [ | [i s m] results IH ]; [ reflexivity | ].
  cbn. now rewrite <- IH at 1.
Qed.

(** X20. [PineconeService.delete_vectors] never raises and never
    answers [False]: when it returns, the list of ids is not empty and the
    last call of the index, with exactly these ids, was accepted. *)
Theorem pinecone_delete_contract (index_delete : nat -> list string -> outcome unit)
    (fuel : nat) (vector_ids : list string) (deleted : list (list string)) :
  match Pinecone.delete_vectors index_delete fuel vector_ids deleted with
  | (Returned b, deleted') =>
      b = true
      /\ vector_ids <> []
      /\ exists deleted0, deleted' = deleted0 ++ [vector_ids]
                          /\ index_delete (length deleted0) vector_ids = Returned tt
  | (Raised _, _) => False
  | (Pending, _) => True
  end.
Proof.
  unfold Pinecone.delete_vectors, Tenacity.retry.
  pose proof (retrying_stop_never_result (Tenacity.wait_exponential 1 4 60) (fun _ s => s)
                (Pinecone.delete_vectors_attempt index_delete vector_ids)
                (fun _ => True) (fun _ _ => I) (fun _ _ _ => I) fuel 1 deleted I) as H.
  destruct (Tenacity.retrying _ _ _ _ _ _ _) as [ [b | e | ] deleted' ]; cbn [fst snd] in H;
    [ | exact H | exact I ].
  destruct H as (s0 & _ & Hattempt).
  unfold Pinecone.delete_vectors_attempt, Py.try_except in Hattempt.
  destruct vector_ids as [ | id_ ids ]; [ discriminate | ].
  unfold Py.bind, Pinecone.call_index_delete in Hattempt.
  destruct (index_delete (length s0) (id_ :: ids)) as [ [] | e | ] eqn:Hindex; try discriminate.
  injection Hattempt as <- <-.
  split; [ reflexivity | split; [ discriminate | eauto ] ].
Qed.

(** X21. The input checks of the vector-store client do not
    reach the caller: with a vector of another dimension than the index
    ([upsert_vectors], [query]) or an empty list of ids ([delete_vectors])
    the call never returns and never raises, and the index is not called. *)
Theorem pinecone_invalid_input_never_returns
    (index_upsert : nat -> list vector_item -> outcome unit)
    (index_query : nat -> embedding -> Z -> option pyval -> outcome (list Match))
    (index_delete : nat -> list string -> outcome unit) (fuel : nat) :
  (forall vector_data sent,
      Exists (fun item => length (snd (fst item)) <> dimension) vector_data ->
      Pinecone.upsert_vectors dimension index_upsert fuel vector_data sent = (Pending, sent))
  /\ (forall query_vector top_k filter_params asked,
         length query_vector <> dimension ->
         Pinecone.query dimension index_query fuel query_vector top_k filter_params asked
         = (Pending, asked))
  /\ (forall deleted,
         Pinecone.delete_vectors index_delete fuel [] deleted = (Pending, deleted)).
Proof.
  split; [ | split ].
  - intros vector_data sent Hbad.
    unfold Pinecone.upsert_vectors, Tenacity.retry.
    destruct (retrying_never_stops (Tenacity.wait_exponential 1 4 60) (fun _ s => s)
                (Pinecone.upsert_vectors_attempt dimension index_upsert vector_data)
                (fun s => s = sent)) with (fuel := fuel) (attempt := 1) (s := sent) as [H1 H2].
    + intros s ->. unfold Pinecone.upsert_vectors_attempt, Py.try_except.
      match goal with
      | |- context [find ?f vector_data] => destruct (find f vector_data) eqn:Hfind
      end.
      * cbn. eauto.
      * exfalso. apply List.Exists_exists in Hbad as (item & Hin & Hitem).
        pose proof (find_none _ _ Hfind item Hin) as Hok. cbn beta in Hok.
        apply negb_false_iff, Nat.eqb_eq in Hok. contradiction.
    + auto.
    + reflexivity.
    + destruct (Tenacity.retrying _ _ _ _ _ _ _) as [r s']. cbn in H1, H2. now subst.
  - intros query_vector top_k filter_params asked Hbad.
    unfold Pinecone.query, Tenacity.retry.
    destruct (retrying_never_stops (Tenacity.wait_exponential 1 4 60) (fun _ s => s)
                (Pinecone.query_attempt dimension index_query query_vector top_k filter_params)
                (fun s => s = asked)) with (fuel := fuel) (attempt := 1) (s := asked) as [H1 H2].
    + intros s ->. unfold Pinecone.query_attempt, Py.try_except.
      destruct (Nat.eqb_spec (length query_vector) dimension); [ contradiction | ].
      cbn. eauto.
    + auto.
    + reflexivity.
    + destruct (Tenacity.retrying _ _ _ _ _ _ _) as [r s']. cbn in H1, H2. now subst.
  - intros deleted.
    unfold Pinecone.delete_vectors, Tenacity.retry.
    destruct (retrying_never_stops (Tenacity.wait_exponential 1 4 60) (fun _ s => s)
                (Pinecone.delete_vectors_attempt index_delete [])
                (fun s => s = deleted)) with (fuel := fuel) (attempt := 1) (s := deleted)
      as [H1 H2].
    + intros s ->. cbn. eauto.
    + auto.
    + reflexivity.
    + destruct (Tenacity.retrying _ _ _ _ _ _ _) as [r s']. cbn in H1, H2. now subst.
Qed.

End PineconeMore.

Lemma pinecone_invalid_input_never_returns_witness :
  Pinecone.upsert_vectors 2 (fun _ _ => Returned tt) 5 [("a", [1%Q], VDict [])] []
  = (Pending, [])
  /\ Pinecone.query 2 (fun _ _ _ _ => Returned []) 5 [1%Q] 3 None [] = (Pending, [])
  /\ Pinecone.delete_vectors (fun _ _ => Returned tt) 5 [] [] = (Pending, []).
Proof.
  destruct (pinecone_invalid_input_never_returns 2 (fun _ _ => Returned tt)
              (fun _ _ _ _ => Returned []) (fun _ _ => Returned tt) 5) as (H1 & H2 & H3).
  split; [ | split ].
  - apply H1. apply Exists_cons_hd. cbn. lia.
  - apply H2. cbn. lia.
  - apply H3.
Defined.

(** ** Deleting embeddings *)

Lemma valid_vector_ids_check (vector_ids : list pyval) :
  negb (PyBuiltins.truthy (VList vector_ids))
  || negb (forallb (fun id_ => PyBuiltins.isinstance id_ PyBuiltins.TStr) vector_ids) = false
  <-> valid_vector_ids vector_ids.
Proof.
  unfold valid_vector_ids. rewrite orb_false_iff, !negb_false_iff, forallb_forall,
    List.Forall_forall.
  split; intros [Hne Hall]; split.
  - destruct vector_ids; [ discriminate | discriminate ].
  - intros id_ Hin. specialize (Hall id_ Hin). destruct id_; try discriminate. eauto.
  - destruct vector_ids; [ contradiction | reflexivity ].
  - intros id_ Hin. destruct (Hall id_ Hin) as [s ->]. reflexivity.
Qed.

(** X22. [delete_embeddings] asks the adapter exactly when
    the ids are a non-empty list of strings: then the adapter is called
    once with these ids, its answer is the result and its error comes back
    as a [RuntimeError]; otherwise the call fails with a [RuntimeError]
    and the adapter is not called. *)
Theorem delete_embeddings_checks_ids (adapter_delete : nat -> list pyval -> outcome bool)
    (vector_ids : list pyval) (calls : list (list pyval)) :
  (valid_vector_ids vector_ids ->
   Embeddings.delete_embeddings adapter_delete vector_ids calls
   = (match adapter_delete (length calls) vector_ids with
      | Raised e => Raised (RuntimeError ("Failed to delete vectors: " +:+ str e))
      | r => r
      end, calls ++ [vector_ids]))
  /\ (~ valid_vector_ids vector_ids ->
      Embeddings.delete_embeddings adapter_delete vector_ids calls
      = (Raised (RuntimeError "Failed to delete vectors: Invalid vector IDs provided"), calls)).
Proof.
  unfold Embeddings.delete_embeddings, Py.try_except. split; intros Hids.
  - apply valid_vector_ids_check in Hids. rewrite Hids.
    destruct (adapter_delete (length calls) vector_ids); reflexivity.
  - destruct (negb (PyBuiltins.truthy (VList vector_ids))
              || negb (forallb (fun id_ => PyBuiltins.isinstance id_ PyBuiltins.TStr) vector_ids))
      eqn:Hcheck; [ reflexivity | ].
    apply valid_vector_ids_check in Hcheck. contradiction.
Qed.

Lemma delete_embeddings_checks_ids_witness :
  Embeddings.delete_embeddings (fun _ _ => Returned true) [VStr "a"; VStr "b"] []
  = (Returned true, [[VStr "a"; VStr "b"]])
  /\ Embeddings.delete_embeddings (fun _ _ => Returned true) [VStr "a"; VInt 7] []
     = (Raised (RuntimeError "Failed to delete vectors: Invalid vector IDs provided"), []).
Proof.
  split.
  - apply (proj1 (delete_embeddings_checks_ids (fun _ _ => Returned true)
                    [VStr "a"; VStr "b"] [])).
    split; [ discriminate | ]. repeat constructor; eauto.
  - apply (proj2 (delete_embeddings_checks_ids (fun _ _ => Returned true)
                    [VStr "a"; VInt 7] [])).
    intros [_ Hall]. inversion Hall as [ | ? ? _ Hrest ]. inversion Hrest as [ | ? ? Hint _ ].
    destruct Hint as [s Hs]. discriminate.
Defined.

(** ** More on the agent *)

Section AgentMore.
Variables (cfg : Settings) (env : Services).

(** X23. [Agent.execute_skill] invokes a skill only when the
    name is registered, the breaker is not open and the skill accepts the
    inputs.  An unknown name and refused inputs are reported as
    [ValueError], and then nothing has changed: not the agent, not the
    record of the skill calls. *)
Theorem execute_skill_only_when_valid (skill_name : string) (inputs : PyBuiltins.dict)
    (s : Agent.Sys) :
  let r := Agent.execute_skill env skill_name inputs s in
  let registry := Agent._skill_registry (fst s) in
  (Skills.get_skill registry skill_name = None ->
   r = (Raised (ValueError ("Skill not found: " +:+ skill_name)), s))
  /\ (forall skill,
         Skills.get_skill registry skill_name = Some skill ->
         CircuitBreaker.opened (Agent._circuit_breaker (fst s)) (clock (snd s)) = false ->
         fst (Skills.validate_inputs skill inputs) = false ->
         exists msg, r = (Raised (ValueError ("Invalid inputs: " +:+ msg)), s))
  /\ (snd r <> s ->
      exists skill,
        Skills.get_skill registry skill_name = Some skill
        /\ CircuitBreaker.opened (Agent._circuit_breaker (fst s)) (clock (snd s)) = false
        /\ fst (Skills.validate_inputs skill inputs) = true
        /\ snd r = (fst s, W.set_skill_calls (skill_calls (snd s) ++ [(Skills.name skill, inputs)])
                             (snd s))).
Proof.
  cbv zeta. unfold Agent.execute_skill, Py.try_except, Py.bind, Py.get.
  split; [ | split ].
  - intros ->. reflexivity.
  - intros skill -> -> Hinvalid.
    destruct (Skills.validate_inputs skill inputs) as [is_valid error_msg].
    cbn in Hinvalid. subst is_valid. cbn. eauto.
  - destruct (Skills.get_skill _ skill_name) as [skill | ] eqn:Hskill; [ | cbn; congruence ].
    destruct (CircuitBreaker.opened _ _) eqn:Hopen; [ cbn; congruence | ].
    destruct (Skills.validate_inputs skill inputs) as [is_valid error_msg] eqn:Hvalid.
    destruct is_valid; [ | cbn; congruence ].
    intros _. exists skill. cbn [negb fst].
    unfold Agent.in_world, Py.zoom, W.call_skill_execute. cbn [fst snd].
    destruct (skill_execute env _ skill inputs); cbn; rewrite ?Hvalid;
      repeat split; reflexivity.
Qed.

Lemma dict_get_set (d : PyBuiltins.dict) (k k' : string) (v : pyval) :
  PyBuiltins.dict_get (PyBuiltins.dict_set d k v) k'
  = if String.eqb k' k then Some v else PyBuiltins.dict_get d k'.
Proof.
  induction d as [ | [k0 v0] d IH ]; cbn.
  - destruct (String.eqb_spec k' k); reflexivity.
  - destruct (String.eqb_spec k k0) as [-> | Hk]; cbn.
    + destruct (String.eqb_spec k' k0); reflexivity.
    + destruct (String.eqb_spec k' k0) as [-> | Hk'].
      * destruct (String.eqb_spec k0 k); [ congruence | reflexivity ].
      * exact IH.
Qed.

Lemma dict_get_absent (e : PyBuiltins.dict) (k : string) :
  ~ In k (map fst e) -> PyBuiltins.dict_get e k = None.
Proof.
  induction e as [ | [k0 v0] e IH ]; cbn; [ reflexivity | ].
  intros Hnot. destruct (String.eqb_spec k k0) as [-> | _]; [ tauto | ].
  apply IH. tauto.
Qed.

Lemma dict_get_update (e d : PyBuiltins.dict) (k : string) :
  List.NoDup (map fst e) ->
  PyBuiltins.dict_get (PyBuiltins.dict_update d e) k
  = match PyBuiltins.dict_get e k with
    | Some v => Some v
    | None => PyBuiltins.dict_get d k
    end.
Proof.
  unfold PyBuiltins.dict_update. revert d.
  induction e as [ | [k0 v0] e IH ]; intros d Hnodup; [ reflexivity | ].
  cbn in Hnodup. apply List.NoDup_cons_iff in Hnodup as [Hfresh Hnodup].
  cbn [fold_left fst snd]. rewrite (IH _ Hnodup). cbn [PyBuiltins.dict_get].
  rewrite dict_get_set.
  destruct (String.eqb_spec k k0) as [-> | _]; [ | reflexivity ].
  now rewrite (dict_get_absent e k0 Hfresh).
Qed.

(** X24. [update_state] with a dictionary within the size limit
    merges it into the state: a key of the update reads its new value,
    every other key reads what it read before; the rest of the agent and
    the world are untouched.  Anything that is not a dictionary is
    answered with [False], not with an exception, and changes nothing. *)
Theorem update_state_merges (fuel : nat) (new_state : pyval) (s : Agent.Sys) :
  let r := Agent.update_state fuel new_state s in
  (forall d,
      new_state = VDict d ->
      List.NoDup (map fst d) ->
      PyBuiltins.len_str new_state <= Agent.MAX_CONTEXT_LENGTH ->
      fst r = Returned true
      /\ (forall k, PyBuiltins.dict_get (Agent._state (fst (snd r))) k
                    = match PyBuiltins.dict_get d k with
                      | Some v => Some v
                      | None => PyBuiltins.dict_get (Agent._state (fst s)) k
                      end)
      /\ Agent._conversation_history (fst (snd r)) = Agent._conversation_history (fst s)
      /\ Agent._skill_registry (fst (snd r)) = Agent._skill_registry (fst s)
      /\ snd (snd r) = snd s)
  /\ (PyBuiltins.is_dict new_state = false -> r = (Returned false, s)).
Proof.
  cbv zeta. split.
  - intros d -> Hnodup Hsize. rewrite (update_state_small fuel d s Hsize). cbn [fst snd].
    split; [ reflexivity | split; [ | auto ] ].
    intros k. cbn. apply dict_get_update, Hnodup.
  - intros Hnot. destruct new_state; try reflexivity. discriminate.
Qed.

(** X25. [get_conversation_context] never raises, whatever the
    security context, the embedding provider and the vector store do, and
    it leaves the agent (state, history, registry, breaker) as it was. *)
Theorem get_conversation_context_never_raises (fuel : nat) (request : string)
    (security_context : option PyBuiltins.dict) (s : Agent.Sys) :
  let r := Agent.get_conversation_context cfg env fuel request security_context s in
  match fst r with
  | Raised _ => False
  | _ => True
  end
  /\ fst (snd r) = fst s.
Proof.
  cbv zeta. unfold Agent.get_conversation_context, Py.try_except, Py.bind.
  pose proof (check_security_state env security_context s) as Hsec.
  destruct (Agent.check_security env security_context s) as [ [ [] | e | ] s0 ];
    cbn in Hsec; subst s0; [ | cbn; split; [ exact I | reflexivity ] .. ].
  unfold Agent.in_world, Py.zoom. cbn [fst snd].
  destruct (Embeddings.generate_embedding cfg env fuel request (snd s)) as [ [e1 | e1 | ] w1 ];
    cbn [fst snd]; [ | cbn; split; [ exact I | reflexivity ] .. ].
  destruct (Embeddings.search_similar cfg env fuel request 5 None w1) as [ [ms | e2 | ] w2 ];
    cbn [fst snd]; [ | cbn; split; [ exact I | reflexivity ] .. ].
  destruct (Agent.project_all ms); cbn; split; first [ exact I | reflexivity ].
Qed.

End AgentMore.

Lemma execute_skill_only_when_valid_witness :
  Agent.execute_skill Demo.env "translate" [("request", VStr "hello")] Demo.sys_with_skill
  = (Raised (ValueError "Skill not found: translate"), Demo.sys_with_skill).
Proof.
  apply (proj1 (execute_skill_only_when_valid Demo.env "translate" [("request", VStr "hello")]
                  Demo.sys_with_skill)).
  vm_compute. reflexivity.
Defined.

Lemma update_state_merges_witness :
  let r := Agent.update_state 0 (VDict [("mode", VStr "fast")]) Demo.sys in
  fst r = Returned true
  /\ (forall k, PyBuiltins.dict_get (Agent._state (fst (snd r))) k
                = match PyBuiltins.dict_get [("mode", VStr "fast")] k with
                  | Some v => Some v
                  | None => PyBuiltins.dict_get (Agent._state (fst Demo.sys)) k
                  end)
  /\ Agent._conversation_history (fst (snd r)) = Agent._conversation_history (fst Demo.sys)
  /\ Agent._skill_registry (fst (snd r)) = Agent._skill_registry (fst Demo.sys)
  /\ snd (snd r) = snd Demo.sys.
Proof.
  cbv zeta.
  apply (proj1 (update_state_merges 0 (VDict [("mode", VStr "fast")]) Demo.sys)
           [("mode", VStr "fast")]).
  - reflexivity.
  - repeat constructor. cbn. tauto.
  - vm_compute. lia.
Defined.

(** ** The route handlers *)

Section RoutesMore.
Variables (cfg : Settings) (env : Services).




End RoutesMore.


(** ** A request that runs no skill *)

Section PipelineMore.
Variables (cfg : Settings) (env : Services).

Lemma get_conversation_context_runs (fuel : nat) (request : string) (s : Agent.Sys) :
  request <> EmptyString ->
  provider_answers cfg env ->
  store_answers env ->
  exists ctx w',
    Agent.get_conversation_context cfg env (S fuel) request None s = (Returned ctx, (fst s, w'))
    /\ embedding_calls w' = embedding_calls (snd s) ++ [request; request]
    /\ clock w' = clock (snd s)
    /\ counters w' = counters (snd s).
Proof.
  intros Hreq Hprov Hstore. destruct s as [a w].
  destruct (Hprov (length (embedding_calls w)) request) as (e1 & He1 & Hdim1).
  set (w1 := W.set_embedding_calls (embedding_calls w ++ [request]) w).
  destruct (Hprov (length (embedding_calls w1)) request) as (e2 & He2 & Hdim2).
  set (w2 := W.set_embedding_calls (embedding_calls w1 ++ [request]) w1).
  assert (exists r, Embeddings.search_similar cfg env (S fuel) request 5 None w1
                    = (r, W.set_query_calls (query_calls w2 ++ [(e2, 5%Z, None)]) w2)
                    /\ r <> Pending) as (r & Hsearch & Hr).
  { unfold Embeddings.search_similar, Py.try_except, Py.bind, PyBuiltins.nonempty.
    destruct (String.eqb_spec request EmptyString); [ contradiction | ].
    cbn [negb]. change (5 <? 1)%Z with false. cbv beta iota.
    rewrite (generate_embedding_returns cfg env request fuel w1 e2 Hreq He2 Hdim2).
    fold w2. unfold W.call_query.
    pose proof (Hstore (length (query_calls w2)) e2 5%Z None) as Hanswer.
    destruct (pinecone_query env _ e2 5%Z None); eexists; (split; [ reflexivity | congruence ]). }
  unfold Agent.get_conversation_context, Py.try_except, Py.bind.
  cbn [Agent.check_security Py.ret].
  unfold Agent.in_world, Py.zoom. cbn [fst snd].
  rewrite (generate_embedding_returns cfg env request fuel w e1 Hreq He1 Hdim1).
  fold w1. cbn [fst snd]. rewrite Hsearch.
  assert (embedding_calls (W.set_query_calls (query_calls w2 ++ [(e2, 5%Z, None)]) w2)
          = embedding_calls w ++ [request; request]) as Hcalls.
  { cbn. now rewrite <- app_assoc. }
  destruct r as [ms | err | ]; [ | | congruence ].
  - destruct (Agent.project_all ms) as [err | ctx]; cbn; eauto 10.
  - cbn. eauto 10.
Qed.

(** X28. A non-empty request without security context, on an
    agent whose registry lists no skill, with the embedding provider and
    the vector store answering: the first attempt returns a response with
    no results; the request is appended to the history, the state records
    it, one success is counted, and the provider has been asked three
    times for the embedding of the same request. *)
Theorem process_request_without_skills (fuel : nat) (req : string)
    (context : option PyBuiltins.dict) (s : Agent.Sys) :
  req <> EmptyString ->
  provider_answers cfg env ->
  store_answers env ->
  Skills.list_skills (Agent._skill_registry (fst s)) = [] ->
  PyBuiltins.len_str (VDict (last_request_state env req (clock (snd s))))
  <= Agent.MAX_CONTEXT_LENGTH ->
  exists s',
    Agent.process_request cfg env (S fuel) (VStr req) context None s
    = (Returned {| Agent.results := []; Agent.execution_time := 0;
                   Agent.skills_executed := 0;
                   Agent.response_timestamp := isoformat env (clock (snd s)) |}, s')
    /\ Agent._conversation_history (fst s')
       = Agent.append_turn (Agent.user_turn env (clock (snd s)) req context)
           (Agent._conversation_history (fst s))
    /\ Agent._state (fst s')
       = PyBuiltins.dict_update (Agent._state (fst s))
           (last_request_state env req (clock (snd s)))
    /\ embedding_calls (snd s') = embedding_calls (snd s) ++ [req; req; req]
    /\ W.counter request_success_label (snd s')
       = 1 + W.counter request_success_label (snd s).
Proof.
  intros Hreq Hprov Hstore Hskills Hsize. destruct s as [a w]. cbn [fst snd] in *.
  destruct (Hprov (length (embedding_calls w)) req) as (e1 & He1 & Hdim1).
  set (a1 := Agent.set_history
               (Agent.append_turn (Agent.user_turn env (clock w) req context)
                  (Agent._conversation_history a)) a).
  set (w1 := W.set_embedding_calls (embedding_calls w ++ [req]) w).
  destruct (get_conversation_context_runs fuel req (a1, w1) Hreq Hprov Hstore)
    as (ctx & w2 & Hctx & Hcalls & Hclock & Hcounters).
  cbn [fst snd] in Hctx, Hcalls, Hclock, Hcounters.
  set (a2 := Agent.set_state
               (PyBuiltins.dict_update (Agent._state a1)
                  (last_request_state env req (clock w))) a1).
  exists (a2, W.set_counters (counters w2 ++ [request_success_label]) w2).
  split; [ | split; [ reflexivity | split; [ reflexivity | split ] ] ].
  - unfold Agent.process_request, Agent.retry3. apply retry_first_attempt.
    unfold Agent.process_request_attempt, Py.try_except. unfold Py.bind at 1.
    unfold Agent.in_world at 1. unfold Py.zoom. cbn [W.now fst snd].
    cbn [PyBuiltins.truthy PyBuiltins.isinstance PyBuiltins.type_of PyBuiltins.pytype_eqb
           negb orb andb].
    destruct (String.eqb_spec req EmptyString) as [ | _ ]; [ contradiction | ].
    cbn [negb orb]. unfold Py.bind at 1. cbn [Agent.check_security Py.ret].
    unfold Py.bind at 1.
    assert (Agent._update_conversation_history env req context (a, w) = (Returned tt, (a1, w)))
      as Hhistory by reflexivity.
    rewrite Hhistory. unfold Py.bind at 1.
    unfold Agent.in_world at 1. unfold Py.zoom. cbn [fst snd].
    rewrite (generate_embedding_returns cfg env req fuel w e1 Hreq He1 Hdim1). fold w1.
    cbn [fst snd]. unfold Py.bind at 1. rewrite Hctx. unfold Py.bind at 1.
    assert (Agent._select_skills e1 (a1, w2) = (Returned [], (a1, w2))) as Hselect.
    { unfold Agent._select_skills, Py.try_except, Py.bind, Py.get. cbn [fst snd].
      change (Agent._skill_registry a1) with (Agent._skill_registry a).
      rewrite Hskills. reflexivity. }
    rewrite Hselect. cbn [Py.for_each]. unfold Py.bind at 1. cbn [Py.ret].
    unfold Py.bind at 1. unfold Agent.in_world at 1. unfold Py.zoom. cbn [W.now fst snd].
    rewrite Hclock. change (clock w1) with (clock w). unfold Py.bind at 1.
    change (VDict [("last_request", VStr req); ("last_results", VList []);
                   ("timestamp", VStr (isoformat env (clock w)))])
      with (VDict (last_request_state env req (clock w))).
    rewrite (update_state_small (S fuel) _ (a1, w2) Hsize). fold a2. cbn [fst snd].
    unfold Py.bind at 1. unfold Agent.in_world at 1. unfold Py.zoom. cbn [W.now fst snd].
    rewrite Hclock. change (clock w1) with (clock w).
    unfold Py.bind at 1. unfold Agent.in_world at 1. unfold Py.zoom, W.inc, Py.modify.
    cbn [fst snd]. rewrite Z.sub_diag. reflexivity.
  - cbn [fst snd W.set_counters embedding_calls]. rewrite Hcalls. cbn.
    now rewrite <- app_assoc.
  - cbn [snd]. rewrite counter_inc. unfold W.counter. rewrite Hcounters. reflexivity.
Qed.

End PipelineMore.

Lemma demo_store_answers : store_answers Demo.env.
Proof. intros n e top_k filter_params. discriminate. Qed.

Lemma process_request_without_skills_witness :
  exists s',
    Agent.process_request Demo.cfg Demo.env 1 (VStr "hello") None None Demo.sys
    = (Returned {| Agent.results := []; Agent.execution_time := 0;
                   Agent.skills_executed := 0;
                   Agent.response_timestamp := isoformat Demo.env (clock (snd Demo.sys)) |}, s')
    /\ Agent._conversation_history (fst s')
       = Agent.append_turn (Agent.user_turn Demo.env (clock (snd Demo.sys)) "hello" None)
           (Agent._conversation_history (fst Demo.sys))
    /\ Agent._state (fst s')
       = PyBuiltins.dict_update (Agent._state (fst Demo.sys))
           (last_request_state Demo.env "hello" (clock (snd Demo.sys)))
    /\ embedding_calls (snd s') = embedding_calls (snd Demo.sys) ++ ["hello"; "hello"; "hello"]
    /\ W.counter request_success_label (snd s')
       = 1 + W.counter request_success_label (snd Demo.sys).
Proof.
  apply (process_request_without_skills Demo.cfg Demo.env 0 "hello" None Demo.sys).
  - discriminate.
  - apply demo_provider_answers. reflexivity.
  - apply demo_store_answers.
  - cbn. unfold Skills.list_skills. cbn. rewrite map_to_list_empty. reflexivity.
  - vm_compute. lia.
Defined.

Lemma generate_text_calls_provider_once_witness :
  LLM.generate_text Demo.cfg Demo.env 1 " hello " None None None Demo.world
  = (Returned "done",
     W.set_completion_calls
       (completion_calls Demo.world ++ [(PyBuiltins.strip " hello ", None, None, model Demo.cfg)])
       Demo.world).
Proof.
  destruct (LLM.new_LLMRequest " hello " None None None) as [e | request] eqn:Hrequest;
    [ discriminate | ].
  apply (generate_text_calls_provider_once Demo.cfg Demo.env " hello " None None None request
           "done" 0 Demo.world Hrequest).
  - discriminate.
  - reflexivity.
Defined.

Lemma generate_text_provider_failure_witness :
  let env := {| create_embedding := create_embedding Demo.env;
                create_completion := fun _ _ _ _ _ => Raised (ServiceError "overloaded");
                upsert_vectors := upsert_vectors Demo.env;
                pinecone_query := pinecone_query Demo.env;
                skill_execute := skill_execute Demo.env;
                isoformat := isoformat Demo.env;
                fromisoformat := fromisoformat Demo.env |} in
  let args := ("hello", None, None, model Demo.cfg) in
  let r := LLM.generate_text Demo.cfg env 3 "hello" None None None Demo.world in
  fst r = Raised (RetryError (RuntimeError ("Text generation failed: " +:+ "overloaded")))
  /\ completion_calls (snd r) = completion_calls Demo.world ++ [args; args; args]
  /\ rate_limiter (snd r) = rate_limiter Demo.world
  /\ W.counter service_error_label (snd r) = 3 + W.counter service_error_label Demo.world.
Proof.
  cbv zeta.
  destruct (LLM.new_LLMRequest "hello" None None None) as [e | request] eqn:Hrequest;
    [ discriminate | ].
  injection Hrequest as <-.
  apply (generate_text_provider_failure Demo.cfg _ "hello" None None None _
           (ServiceError "overloaded") 3 Demo.world eq_refl).
  - discriminate.
  - reflexivity.
  - intros n. reflexivity.
  - lia.
Defined.


Lemma get_embedding_behaviour_witness :
  LLM.get_embedding Demo.env "  " Demo.world
  = (Raised (RuntimeError "Embedding generation failed: Input text cannot be empty"),
     W.set_counters
       (counters Demo.world ++ ["llm_request_failures_total/get_embedding/service_error"])
       Demo.world).
Proof.
  apply (proj1 (get_embedding_behaviour Demo.env "  " Demo.world)).
  reflexivity.
Defined.
